(** * The module adapter of kusion-module-framework

    A shallow embedding of [pkg/module/module.go] (the current adapter) and of
    the earlier revision of the same file, and the properties of the request
    assembler [NewGeneratorRequest] and of the adapter [Generate].

    Go values are modelled as follows.
    - A pointer [*T] is an [option T]; [None] is the nil pointer.
    - A byte slice whose nil-ness the code tests is an [option (list byte)];
      [None] is the nil slice, [Some []] an empty slice that is not nil.
    - A slice that is only ranged over or appended to is a [list].
    - A Go function returning a pointer and an error returns
      [option T * option error].
    - The packages the file imports (yaml, fmt's verbs, the generated proto
      code, the API types of v1) are fields of a class: the code is verified
      for every implementation of them. *)

From Stdlib Require Import List Bool Arith Lia.
From Stdlib.Strings Require Import String Ascii Byte.
Import ListNotations.
Open Scope string_scope.

Definition bytes := list byte.

(** ** Go's errors *)

(** The two error values the code builds: [errors.New] (and [fmt.Errorf]
    without [%w]) gives an [errorString]; [fmt.Errorf] with one [%w] gives
    fmt's [wrapError], a message and the wrapped error.  Errors of the yaml
    library and of a module are values of the same interface. *)
Inductive error : Type :=
| errorString (s : string)
| wrapError (msg : string) (err : error).

Definition Error (e : error) : string :=
  match e with
  | errorString s => s
  | wrapError msg _ => msg
  end.

(** [errors.Unwrap]. *)
Definition Unwrap (e : error) : option error :=
  match e with
  | errorString _ => None
  | wrapError _ err => Some err
  end.

Definition errors_New (text : string) : error := errorString text.

(** [fmt.Errorf (pre ++ "%w" ++ post', err, ...)]: [post] is the text that
    follows the wrapped error's message, its verbs already formatted. *)
Definition fmt_Errorf (pre : string) (err : error) (post : string) : error :=
  wrapError (pre ++ Error err ++ post) err.

(** ** Function bodies *)

(** What a call gives back to its caller: a value, or a panic that unwinds. *)
Inductive outcome (A : Type) : Type :=
| Returned (a : A)
| Panicked (reason : string).
Arguments Returned {A} a.
Arguments Panicked {A} reason.

(** The panic of a field access through a nil pointer. *)
Definition nil_dereference : string :=
  "runtime error: invalid memory address or nil pointer dereference".

(** A statement either falls through to the next one with a value, or leaves
    the function with a [return] of a value of type [R], or panics. *)
Inductive step (R A : Type) : Type :=
| Next (a : A)
| Return (r : R)
| Panic (reason : string).
Arguments Next {R A} a.
Arguments Return {R A} r.
Arguments Panic {R A} reason.

(** A statement with the events it emitted, oldest first: [E] is the type of
    the events a body leaves behind (log lines, calls to collaborators). *)
Definition Stmt (E R A : Type) : Type := (step R A * list E)%type.

Section Body.
Context {E R : Type}.

Definition ret {A} (a : A) : Stmt E R A := (Next a, []).
Definition return_ {A} (r : R) : Stmt E R A := (Return r, []).
Definition panic {A} (reason : string) : Stmt E R A := (Panic reason, []).
Definition emit (e : E) : Stmt E R unit := (Next tt, [e]).

Definition bind {A B} (s : Stmt E R A) (k : A -> Stmt E R B) : Stmt E R B :=
  match s with
  | (Next a, t) => let (s', t') := k a in (s', (t ++ t')%list)
  | (Return r, t) => (Return r, t)
  | (Panic reason, t) => (Panic reason, t)
  end.

(** [p.f] for a pointer [p]. *)
Definition deref {A} (p : option A) : Stmt E R A :=
  match p with
  | Some a => ret a
  | None => panic nil_dereference
  end.

(** A call of a collaborator that may panic. *)
Definition call {A} (o : outcome A) : Stmt E R A :=
  match o with
  | Returned a => ret a
  | Panicked reason => panic reason
  end.

(** A function: its body runs to a [return]. *)
Definition func (body : Stmt E R R) : outcome R * list E :=
  match body with
  | (Next r, t) => (Returned r, t)
  | (Return r, t) => (Returned r, t)
  | (Panic reason, t) => (Panicked reason, t)
  end.

(** A call of a function of this package from another body. *)
Definition invoke {A} (f : outcome A * list E) : Stmt E R A :=
  match f with
  | (Returned a, t) => (Next a, t)
  | (Panicked reason, t) => (Panic reason, t)
  end.
End Body.

Declare Scope go_scope.
Delimit Scope go_scope with go.
Notation "x <- s ;; k" := (bind s (fun x => k))
  (at level 61, s at next level, right associativity) : go_scope.
Notation "s ;; k" := (bind s (fun _ => k))
  (at level 61, right associativity) : go_scope.
Open Scope go_scope.
Notation "' pat <- s ;; k" := (bind s (fun x => match x with pat => k end))
  (at level 61, pat pattern, s at next level, right associativity) : go_scope.

(** The result of a library call that reports failure through an [error]
    (yaml's [Marshal] and [Unmarshal]). *)
Inductive result (A : Type) : Type :=
| ok (a : A)
| failed (err : error).
Arguments ok {A} a.
Arguments failed {A} err.

(** * The current adapter: [pkg/module/module.go] *)

Module Framework.

(** The five configuration layers of a request, in the order
    [NewGeneratorRequest] decodes them. *)
Inductive Layer : Type :=
| LWorkload | LDevConfig | LPlatformConfig | LContext | LSecretStore.

(** What a call leaves behind: the lines it logs, the layers it hands to
    yaml's [Unmarshal], and its invocation of the module. *)
Inductive event : Type :=
| Log (line : string)
| Decode (l : Layer)
| Invoke.

(** The types of [kusionstack.io/kusion-api-go/api.kusion.io/v1] and Go's
    [context.Context], with the zero value of each type the assembler
    declares a variable of. *)
Module v1.
Class Types : Type := {
  Accessory : Type;
  GenericConfig : Type;
  SecretStore : Type;
  Resource : Type;
  Patcher : Type;
  context_Context : Type;
  zero_Accessory : Accessory;
  zero_GenericConfig : GenericConfig;
  zero_SecretStore : SecretStore
}.
End v1.

(** The wire messages of [pkg/module/proto] (generated code). *)
Module proto.
Record GeneratorRequest : Type := {
  Project : string;
  Stack : string;
  App : string;
  Workload : option bytes;
  DevConfig : option bytes;
  PlatformConfig : option bytes;
  Context : option bytes;
  SecretStore : option bytes
}.

Record GeneratorResponse : Type := {
  Resources : list bytes;
  Patcher : option bytes
}.
End proto.

Section Types.
Context `{v1.Types}.

Record GeneratorRequest : Type := {
  Project : string;
  Stack : string;
  App : string;
  Workload : v1.Accessory;
  DevConfig : v1.Accessory;
  PlatformConfig : v1.GenericConfig;
  Context : v1.GenericConfig;
  SecretStore : v1.SecretStore
}.

Record GeneratorResponse : Type := {
  Resources : list v1.Resource;
  Patcher : option v1.Patcher
}.

(** [type FrameworkModule interface]: its one method, [Generate]. *)
Record FrameworkModule : Type := {
  FrameworkModule_Generate :
    v1.context_Context -> option GeneratorRequest ->
    option GeneratorResponse * option error
}.

Record FrameworkModuleWrapper : Type := {
  Module_ : FrameworkModule
}.
End Types.

(** The imported functions.  [Unmarshal in out] is given the contents of the
    variable [out] points to and returns its new contents; the workload
    layer goes through yaml.v2 ([yamlv2]), the others through yaml.v3.
    [String] is the generated method of the wire request, which accepts a
    nil receiver; the [Sprint] functions are fmt's [%v]. *)
Class Imports `{v1.Types} : Type := {
  yamlv2_Unmarshal_Accessory : bytes -> v1.Accessory -> result v1.Accessory;
  yaml_Unmarshal_Accessory : bytes -> v1.Accessory -> result v1.Accessory;
  yaml_Unmarshal_GenericConfig :
    bytes -> v1.GenericConfig -> result v1.GenericConfig;
  yaml_Unmarshal_SecretStore :
    bytes -> v1.SecretStore -> result v1.SecretStore;
  yaml_Marshal_GeneratorRequest : GeneratorRequest -> result bytes;
  yaml_Marshal_Resource : v1.Resource -> result bytes;
  yaml_Marshal_Patcher : v1.Patcher -> result bytes;
  proto_String : option proto.GeneratorRequest -> string;
  Sprint_GeneratorRequest : option GeneratorRequest -> string;
  Sprint_Resource : v1.Resource -> string
}.

Section Code.
Context `{Imports}.

Definition log_Infof (line : string) {R} : Stmt event R unit :=
  emit (Log line).
Definition log_Info (line : string) {R} : Stmt event R unit :=
  emit (Log line).

Definition NewGeneratorRequest (req : option proto.GeneratorRequest)
  : outcome (option GeneratorRequest * option error) * list event :=
  func (
    log_Infof ("module proto request received:" ++ proto_String req) ;;
    (* validate generator request *)
    req <- match req with
           | None => return_ (None, Some (errors_New "empty generator request"))
           | Some req => ret req
           end ;;
    (* validate workload *)
    w <- match proto.Workload req with
         | Some blob =>
             emit (Decode LWorkload) ;;
             match yamlv2_Unmarshal_Accessory blob v1.zero_Accessory with
             | failed err =>
                 return_ (None, Some (fmt_Errorf "unmarshal workload failed. " err ""))
             | ok w => ret w
             end
         | None => ret v1.zero_Accessory
         end ;;
    dc <- match proto.DevConfig req with
          | Some blob =>
              emit (Decode LDevConfig) ;;
              match yaml_Unmarshal_Accessory blob v1.zero_Accessory with
              | failed err =>
                  return_ (None, Some (fmt_Errorf "unmarshal dev config failed. " err ""))
              | ok dc => ret dc
              end
          | None => ret v1.zero_Accessory
          end ;;
    pc <- match proto.PlatformConfig req with
          | Some blob =>
              emit (Decode LPlatformConfig) ;;
              match yaml_Unmarshal_GenericConfig blob v1.zero_GenericConfig with
              | failed err =>
                  return_ (None, Some (fmt_Errorf "unmarshal platform module config failed. " err ""))
              | ok pc => ret pc
              end
          | None => ret v1.zero_GenericConfig
          end ;;
    ctx <- match proto.Context req with
           | Some blob =>
               emit (Decode LContext) ;;
               match yaml_Unmarshal_GenericConfig blob v1.zero_GenericConfig with
               | failed err =>
                   return_ (None, Some (fmt_Errorf "unmarshal context failed. " err ""))
               | ok ctx => ret ctx
               end
           | None => ret v1.zero_GenericConfig
           end ;;
    secretStore <- match proto.SecretStore req with
                   | Some blob =>
                       emit (Decode LSecretStore) ;;
                       match yaml_Unmarshal_SecretStore blob v1.zero_SecretStore with
                       | failed err =>
                           return_ (None, Some (fmt_Errorf "unmarshal secret store failed. " err ""))
                       | ok secretStore => ret secretStore
                       end
                   | None => ret v1.zero_SecretStore
                   end ;;
    let result := {|
      Project := proto.Project req;
      Stack := proto.Stack req;
      App := proto.App req;
      Workload := w;
      DevConfig := dc;
      PlatformConfig := pc;
      Context := ctx;
      SecretStore := secretStore
    |} in
    match yaml_Marshal_GeneratorRequest result with
    | failed err =>
        return_ (None, Some (fmt_Errorf "marshal new generator request failed. " err ""))
    | ok out =>
        log_Infof ("new generator request:" ++ string_of_list_byte out) ;;
        return_ (Some result, None)
    end).

(** [EmptyResponse]: a legal but empty response, [&proto.GeneratorResponse{}]. *)
Definition EmptyResponse : option proto.GeneratorResponse :=
  Some {| proto.Resources := []; proto.Patcher := None |}.

(** The loop of [Generate] over [response.Resources], entered with the
    slice [resources] built so far. *)
Fixpoint marshal_resources {A} (rs : list v1.Resource) (resources : list bytes)
  : Stmt event (option A * option error) (list bytes) :=
  match rs with
  | [] => ret resources
  | res :: rs' =>
      match yaml_Marshal_Resource res with
      | failed err =>
          return_ (None, Some (fmt_Errorf "marshal resource failed: " err
                                 (". res:" ++ Sprint_Resource res)))
      | ok out => marshal_resources rs' (resources ++ [out])%list
      end
  end.

Definition Generate (f : FrameworkModuleWrapper) (ctx : v1.context_Context)
    (req : option proto.GeneratorRequest)
  : outcome (option proto.GeneratorResponse * option error) * list event :=
  func (
    '(request, err) <- invoke (NewGeneratorRequest req) ;;
    match err with Some err => return_ (None, Some err) | None => ret tt end ;;
    emit Invoke ;;
    '(response, err) <- ret (FrameworkModule_Generate (Module_ f) ctx request) ;;
    match err with Some err => return_ (None, Some err) | None => ret tt end ;;
    response <- match response with
                | None =>
                    log_Info ("no resources generated by request:%v"
                              ++ Sprint_GeneratorRequest request) ;;
                    return_ (EmptyResponse, None)
                | Some response => ret response
                end ;;
    (* marshal resources and patcher *)
    resources <- marshal_resources (Resources response) [] ;;
    patcher <- match Patcher response with
               | Some p =>
                   match yaml_Marshal_Patcher p with
                   | failed err =>
                       (* the variable [patcher] printed here is the nil
                          slice [Marshal] returned with its error *)
                       return_ (None, Some (fmt_Errorf "marshal patcher failed: " err
                                              ". patcher:[]"))
                   | ok out => ret (Some out)
                   end
               | None => ret None
               end ;;
    return_ (Some {| proto.Resources := resources; proto.Patcher := patcher |}, None)).
End Code.

(** ** Vocabulary of the properties *)

Section Vocabulary.
Context `{Imports}.

(** Position of a layer in the assembler's decode order. *)
Definition rank (l : Layer) : nat :=
  match l with
  | LWorkload => 0
  | LDevConfig => 1
  | LPlatformConfig => 2
  | LContext => 3
  | LSecretStore => 4
  end.

Definition layer_blob (l : Layer) (r : proto.GeneratorRequest) : option bytes :=
  match l with
  | LWorkload => proto.Workload r
  | LDevConfig => proto.DevConfig r
  | LPlatformConfig => proto.PlatformConfig r
  | LContext => proto.Context r
  | LSecretStore => proto.SecretStore r
  end.

(** The error of the decoder the assembler uses for a layer, on a blob
    decoded into that layer's zero value; [None] when the blob decodes. *)
Definition decode_error (l : Layer) (blob : bytes) : option error :=
  let failure {T} (r : result T) :=
    match r with failed err => Some err | ok _ => None end in
  match l with
  | LWorkload => failure (yamlv2_Unmarshal_Accessory blob v1.zero_Accessory)
  | LDevConfig => failure (yaml_Unmarshal_Accessory blob v1.zero_Accessory)
  | LPlatformConfig => failure (yaml_Unmarshal_GenericConfig blob v1.zero_GenericConfig)
  | LContext => failure (yaml_Unmarshal_GenericConfig blob v1.zero_GenericConfig)
  | LSecretStore => failure (yaml_Unmarshal_SecretStore blob v1.zero_SecretStore)
  end.

(** A layer is malformed in a request when its blob is present and does
    not decode: [malformed l r = Some err], [err] the decoder's error. *)
Definition malformed (l : Layer) (r : proto.GeneratorRequest) : option error :=
  match layer_blob l r with
  | Some blob => decode_error l blob
  | None => None
  end.

(** The error that names layer [l] and wraps the decoder's error. *)
Definition layer_error (l : Layer) (err : error) : error :=
  match l with
  | LWorkload => fmt_Errorf "unmarshal workload failed. " err ""
  | LDevConfig => fmt_Errorf "unmarshal dev config failed. " err ""
  | LPlatformConfig => fmt_Errorf "unmarshal platform module config failed. " err ""
  | LContext => fmt_Errorf "unmarshal context failed. " err ""
  | LSecretStore => fmt_Errorf "unmarshal secret store failed. " err ""
  end.

(** The value a layer's variable holds after its block: the zero value
    when the blob is nil, what [Unmarshal] stores otherwise. *)
Definition decoded {T} (Unmarshal : bytes -> T -> result T) (zero : T)
    (blob : option bytes) : result T :=
  match blob with
  | Some b => Unmarshal b zero
  | None => ok zero
  end.

(** All five layers of [r] decode, to the layers of [g]. *)
Definition layers_decode (r : proto.GeneratorRequest) (g : GeneratorRequest) : Prop :=
  decoded yamlv2_Unmarshal_Accessory v1.zero_Accessory (proto.Workload r)
    = ok (Workload g) /\
  decoded yaml_Unmarshal_Accessory v1.zero_Accessory (proto.DevConfig r)
    = ok (DevConfig g) /\
  decoded yaml_Unmarshal_GenericConfig v1.zero_GenericConfig (proto.PlatformConfig r)
    = ok (PlatformConfig g) /\
  decoded yaml_Unmarshal_GenericConfig v1.zero_GenericConfig (proto.Context r)
    = ok (Context g) /\
  decoded yaml_Unmarshal_SecretStore v1.zero_SecretStore (proto.SecretStore r)
    = ok (SecretStore g).

(** The order in which the assembler visits the layers, and the decode
    calls a run makes when it gets as far as layer [upto]: one for each
    layer up to [upto] whose blob is present. *)
Definition decode_order : list Layer :=
  [LWorkload; LDevConfig; LPlatformConfig; LContext; LSecretStore].

Definition present (b : option bytes) : bool :=
  match b with Some _ => true | None => false end.

Definition attempts (r : proto.GeneratorRequest) (upto : Layer) : list event :=
  map Decode
    (filter (fun l => Nat.leb (rank l) (rank upto) && present (layer_blob l r))
       decode_order).

(** [g] carries the three identifiers of [r]. *)
Definition same_identifiers (r : proto.GeneratorRequest) (g : GeneratorRequest) : Prop :=
  Project g = proto.Project r /\ Stack g = proto.Stack r /\ App g = proto.App r.

(** The request assembled from [r] when none of its layers is present. *)
Definition zero_layers (r : proto.GeneratorRequest) : GeneratorRequest := {|
  Project := proto.Project r;
  Stack := proto.Stack r;
  App := proto.App r;
  Workload := v1.zero_Accessory;
  DevConfig := v1.zero_Accessory;
  PlatformConfig := v1.zero_GenericConfig;
  Context := v1.zero_GenericConfig;
  SecretStore := v1.zero_SecretStore
|}.

(** A resource descriptor, or a patch descriptor, that yaml cannot encode. *)
Definition resource_fails (res : v1.Resource) : Prop :=
  exists err, yaml_Marshal_Resource res = failed err.
Definition resource_encodes (res : v1.Resource) (out : bytes) : Prop :=
  yaml_Marshal_Resource res = ok out.
Definition patcher_fails (p : option v1.Patcher) : Prop :=
  exists d err, p = Some d /\ yaml_Marshal_Patcher d = failed err.

(** How many times a run invoked the module. *)
Definition invocations (t : list event) : nat :=
  List.length (filter (fun e => match e with Invoke => true | _ => false end) t).
End Vocabulary.

End Framework.

(** * The earlier revision of the adapter's request assembler *)

Module Earlier.

(** The earlier assembler emits log lines only. *)
Inductive event : Type :=
| Log (line : string).

(** The types of [kusionstack.io/kusion/pkg/apis/core/v1] and of its
    [workload] package; [zero_Workload] is [workload.Workload{}]. *)
Module v1.
Class Types : Type := {
  Workload : Type;
  Accessory : Type;
  GenericConfig : Type;
  RuntimeConfigs : Type;
  zero_Workload : Workload;
  zero_Accessory : Accessory;
  zero_GenericConfig : GenericConfig
}.

(** The types the earlier adapter's [Generate] handles besides: [v1.Resource]
    and Go's [context.Context]. *)
Class ResourceTypes : Type := {
  Resource : Type;
  context_Context : Type
}.
End v1.

(** The wire request of [kusionstack.io/kusion/pkg/modules/proto]. *)
Module proto.
Record GeneratorRequest : Type := {
  Project : string;
  Stack : string;
  App : string;
  Workload : option bytes;
  DevModuleConfig : option bytes;
  PlatformModuleConfig : option bytes;
  RuntimeConfig : option bytes
}.

Record GeneratorResponse : Type := {
  Resources : list bytes
}.
End proto.

Section Types.
Context `{v1.Types}.

Record GeneratorRequest : Type := {
  Project : string;
  Stack : string;
  App : string;
  Workload : option v1.Workload;
  DevModuleConfig : v1.Accessory;
  PlatformModuleConfig : v1.GenericConfig;
  RuntimeConfig : option v1.RuntimeConfigs
}.
End Types.

(** The imported functions, all of yaml.v2 here.
    [yaml_Unmarshal_nil_RuntimeConfigs] is [Unmarshal] handed a nil
    [*v1.RuntimeConfigs]: there is no variable for it to store into, so it
    gives back its error only, or panics inside the library. *)
Class Imports `{v1.Types} : Type := {
  yaml_Unmarshal_Workload : bytes -> v1.Workload -> result v1.Workload;
  yaml_Unmarshal_Accessory : bytes -> v1.Accessory -> result v1.Accessory;
  yaml_Unmarshal_GenericConfig :
    bytes -> v1.GenericConfig -> result v1.GenericConfig;
  yaml_Unmarshal_nil_RuntimeConfigs : bytes -> outcome (option error);
  yaml_Marshal_GeneratorRequest : GeneratorRequest -> result bytes;
  proto_String : option proto.GeneratorRequest -> string
}.

Section Code.
Context `{Imports}.

Definition log_Infof (line : string) {R} : Stmt event R unit :=
  emit (Log line).

Definition NewGeneratorRequest (req : option proto.GeneratorRequest)
  : outcome (option GeneratorRequest * option error) * list event :=
  func (
    log_Infof ("module proto request received:" ++ proto_String req) ;;
    (* validate workload *)
    req <- deref req ;;
    blob <- match proto.Workload req with
            | None => return_ (None, Some (errorString "workload in the request is nil"))
            | Some blob => ret blob
            end ;;
    (* w := &workload.Workload{} *)
    w <- match yaml_Unmarshal_Workload blob v1.zero_Workload with
         | failed err =>
             return_ (None, Some (fmt_Errorf "unmarshal workload failed. " err ""))
         | ok w => ret (Some w)
         end ;;
    dc <- match proto.DevModuleConfig req with
          | Some blob =>
              match yaml_Unmarshal_Accessory blob v1.zero_Accessory with
              | failed err =>
                  return_ (None, Some (fmt_Errorf "unmarshal dev module config failed. " err ""))
              | ok dc => ret dc
              end
          | None => ret v1.zero_Accessory
          end ;;
    pc <- match proto.PlatformModuleConfig req with
          | Some blob =>
              match yaml_Unmarshal_GenericConfig blob v1.zero_GenericConfig with
              | failed err =>
                  return_ (None, Some (fmt_Errorf "unmarshal platform module config failed. " err ""))
              | ok pc => ret pc
              end
          | None => ret v1.zero_GenericConfig
          end ;;
    (* var rc *v1.RuntimeConfigs: the pointer itself is passed *)
    let rc : option v1.RuntimeConfigs := None in
    match proto.RuntimeConfig req with
    | Some blob =>
        err <- call (yaml_Unmarshal_nil_RuntimeConfigs blob) ;;
        match err with
        | Some err =>
            return_ (None, Some (fmt_Errorf "unmarshal runtime config failed. " err ""))
        | None => ret tt
        end
    | None => ret tt
    end ;;
    let result := {|
      Project := proto.Project req;
      Stack := proto.Stack req;
      App := proto.App req;
      Workload := w;
      DevModuleConfig := dc;
      PlatformModuleConfig := pc;
      RuntimeConfig := rc
    |} in
    match yaml_Marshal_GeneratorRequest result with
    | failed err =>
        return_ (None, Some (fmt_Errorf "marshal new generator request failed. " err ""))
    | ok out =>
        log_Infof ("new generator request:" ++ string_of_list_byte out) ;;
        return_ (Some result, None)
    end).
End Code.

(** ** The earlier adapter *)

Section AdapterTypes.
Context {T : v1.Types} {RT : v1.ResourceTypes}.

(** [Resources] is a slice the adapter compares with nil: [None] is the nil
    slice, [Some []] an empty slice that is not nil. *)
Record GeneratorResponse : Type := {
  Resources : option (list v1.Resource)
}.

Record FrameworkModule : Type := {
  FrameworkModule_Generate :
    v1.context_Context -> option GeneratorRequest ->
    option GeneratorResponse * option error
}.

Record FrameworkModuleWrapper : Type := {
  Module_ : FrameworkModule
}.
End AdapterTypes.

(** What [Generate] imports besides the assembler's imports: yaml's
    [Marshal] on a resource, and fmt's [%v]. *)
Class AdapterImports {T : v1.Types} {RT : v1.ResourceTypes} : Type := {
  yaml_Marshal_Resource : v1.Resource -> result bytes;
  Sprint_GeneratorRequest : option GeneratorRequest -> string;
  Sprint_Resource : v1.Resource -> string
}.

Section Adapter.
Context {T : v1.Types} {RT : v1.ResourceTypes}
  {I : @Imports T} {IA : @AdapterImports T RT}.

Definition log_Info (line : string) {R} : Stmt event R unit :=
  emit (Log line).

(** [EmptyResponse]: [&proto.GeneratorResponse{}]. *)
Definition EmptyResponse : option proto.GeneratorResponse :=
  Some {| proto.Resources := [] |}.

(** The loop of [Generate] over [fwResources.Resources], entered with the
    slice [resources] built so far. *)
Fixpoint marshal_resources {A} (rs : list v1.Resource) (resources : list bytes)
  : Stmt event (option A * option error) (list bytes) :=
  match rs with
  | [] => ret resources
  | res :: rs' =>
      match yaml_Marshal_Resource res with
      | failed err =>
          return_ (None, Some (fmt_Errorf "marshal resource failed: " err
                                 (". res:" ++ Sprint_Resource res)))
      | ok out => marshal_resources rs' (resources ++ [out])%list
      end
  end.

Definition Generate (f : FrameworkModuleWrapper) (ctx : v1.context_Context)
    (req : option proto.GeneratorRequest)
  : outcome (option proto.GeneratorResponse * option error) * list event :=
  func (
    '(request, err) <- invoke (NewGeneratorRequest req) ;;
    match err with Some err => return_ (None, Some err) | None => ret tt end ;;
    '(fwResources, err) <- ret (FrameworkModule_Generate (Module_ f) ctx request) ;;
    match err with Some err => return_ (None, Some err) | None => ret tt end ;;
    (* fwResources == nil || fwResources.Resources == nil *)
    rs <- match fwResources with
          | None =>
              log_Info ("no resources generated by request:%v"
                        ++ Sprint_GeneratorRequest request) ;;
              return_ (EmptyResponse, None)
          | Some fwResources =>
              match Resources fwResources with
              | None =>
                  log_Info ("no resources generated by request:%v"
                            ++ Sprint_GeneratorRequest request) ;;
                  return_ (EmptyResponse, None)
              | Some rs => ret rs
              end
          end ;;
    resources <- marshal_resources rs [] ;;
    return_ (Some {| proto.Resources := resources |}, None)).

(** The resources of a module result, none for a nil result or a nil slice. *)
Definition resources_of (fwResources : option GeneratorResponse) : list v1.Resource :=
  match fwResources with
  | Some fw => match Resources fw with Some rs => rs | None => [] end
  | None => []
  end.

Definition resource_encodes (res : v1.Resource) (out : bytes) : Prop :=
  yaml_Marshal_Resource res = ok out.
End Adapter.

Section EarlierVocabulary.
Context `{Imports}.

(** The layers the earlier assembler decodes when present, as its result
    holds them. *)
Definition decoded {T} (Unmarshal : bytes -> T -> result T) (zero : T)
    (blob : option bytes) : result T :=
  match blob with
  | Some b => Unmarshal b zero
  | None => ok zero
  end.

(** [r] with its runtime-config blob removed. *)
Definition without_runtime_config (r : proto.GeneratorRequest) : proto.GeneratorRequest := {|
  proto.Project := proto.Project r;
  proto.Stack := proto.Stack r;
  proto.App := proto.App r;
  proto.Workload := proto.Workload r;
  proto.DevModuleConfig := proto.DevModuleConfig r;
  proto.PlatformModuleConfig := proto.PlatformModuleConfig r;
  proto.RuntimeConfig := None
|}.
End EarlierVocabulary.

End Earlier.

(** * Sample implementations of the imports

    Small implementations of the imported packages, on which the properties
    below are exercised.  A decoded document is kept as its text; a blob that
    starts with a tab does not decode, as in YAML; a descriptor is either a
    document or a value yaml has no encoding for ([None]). *)

Module Sample.

Definition tab : byte := x09.

Definition unmarshal (blob : bytes) (out : bytes) : result bytes :=
  match blob with
  | [] => ok out
  | b :: _ =>
      if Byte.eqb b tab
      then failed (errorString "yaml: found character that cannot start any token")
      else ok blob
  end.

Definition marshal (v : option bytes) : result bytes :=
  match v with
  | Some doc => ok doc
  | None => failed (errorString "cannot marshal type: func()")
  end.

Definition types : Framework.v1.Types := {|
  Framework.v1.Accessory := bytes;
  Framework.v1.GenericConfig := bytes;
  Framework.v1.SecretStore := bytes;
  Framework.v1.Resource := option bytes;
  Framework.v1.Patcher := option bytes;
  Framework.v1.context_Context := unit;
  Framework.v1.zero_Accessory := [];
  Framework.v1.zero_GenericConfig := [];
  Framework.v1.zero_SecretStore := []
|}.

(** Imports whose encoder of the assembled request succeeds when
    [request_encodes] is set and fails otherwise. *)
Definition imports (request_encodes : bool) : @Framework.Imports types :=
  @Framework.Build_Imports types
    (* yamlv2.Unmarshal, yaml.Unmarshal *)
    unmarshal unmarshal unmarshal unmarshal
    (* yaml.Marshal of the request, of a resource, of a patcher *)
    (fun g =>
       if request_encodes
       then ok (list_byte_of_string (@Framework.Project types g))
       else failed (errorString "yaml: cannot marshal the request"))
    marshal marshal
    (* String *)
    (fun req =>
       match req with
       | Some r => Framework.proto.Project r
       | None => "<nil>"
       end)
    (* the verb v of a request and of a resource *)
    (fun _ => "&{}") (fun _ => "{}").

(** A module that returns the same result and error for every request. *)
Definition constant_module
    (response : option (@Framework.GeneratorResponse types)) (err : option error)
  : @Framework.FrameworkModuleWrapper types :=
  @Framework.Build_FrameworkModuleWrapper types
    (@Framework.Build_FrameworkModule types (fun _ _ => (response, err))).

(** The wire request of project p, stack s, application a, with no layer. *)
Definition bare : Framework.proto.GeneratorRequest := {|
  Framework.proto.Project := "p";
  Framework.proto.Stack := "s";
  Framework.proto.App := "a";
  Framework.proto.Workload := None;
  Framework.proto.DevConfig := None;
  Framework.proto.PlatformConfig := None;
  Framework.proto.Context := None;
  Framework.proto.SecretStore := None
|}.

Definition malformed_blob : bytes := [tab; x3a].
Definition good_blob : bytes := [x61; x3a; x20; x31].

(** [bare] with one layer set to a blob. *)
Definition with_layer (l : Framework.Layer) (blob : bytes)
    (r : Framework.proto.GeneratorRequest) : Framework.proto.GeneratorRequest :=
  let keep (l' : Framework.Layer) (old : option bytes) :=
    match l, l' with
    | Framework.LWorkload, Framework.LWorkload
    | Framework.LDevConfig, Framework.LDevConfig
    | Framework.LPlatformConfig, Framework.LPlatformConfig
    | Framework.LContext, Framework.LContext
    | Framework.LSecretStore, Framework.LSecretStore => Some blob
    | _, _ => old
    end in
  {|
    Framework.proto.Project := Framework.proto.Project r;
    Framework.proto.Stack := Framework.proto.Stack r;
    Framework.proto.App := Framework.proto.App r;
    Framework.proto.Workload := keep Framework.LWorkload (Framework.proto.Workload r);
    Framework.proto.DevConfig := keep Framework.LDevConfig (Framework.proto.DevConfig r);
    Framework.proto.PlatformConfig :=
      keep Framework.LPlatformConfig (Framework.proto.PlatformConfig r);
    Framework.proto.Context := keep Framework.LContext (Framework.proto.Context r);
    Framework.proto.SecretStore := keep Framework.LSecretStore (Framework.proto.SecretStore r)
  |}.

(** A request with two well-formed layers, and what it assembles to. *)
Definition layered : Framework.proto.GeneratorRequest :=
  with_layer Framework.LDevConfig good_blob
    (with_layer Framework.LWorkload good_blob bare).

Definition layered_assembled : @Framework.GeneratorRequest types :=
  @Framework.Build_GeneratorRequest types "p" "s" "a" good_blob good_blob [] [] [].

(** A request whose context and secret store are both malformed. *)
Definition two_malformed : Framework.proto.GeneratorRequest :=
  with_layer Framework.LSecretStore malformed_blob
    (with_layer Framework.LContext malformed_blob
       (with_layer Framework.LWorkload good_blob bare)).

(** Module results: two resources and a patcher that all encode; a second
    resource that does not encode; a patcher that does not encode. *)
Definition two_resources : @Framework.GeneratorResponse types :=
  @Framework.Build_GeneratorResponse types
    [Some good_blob; Some [x62]] (Some (Some good_blob)).

Definition unencodable_resource : @Framework.GeneratorResponse types :=
  @Framework.Build_GeneratorResponse types [Some good_blob; None] None.

Definition unencodable_patcher : @Framework.GeneratorResponse types :=
  @Framework.Build_GeneratorResponse types [Some good_blob] (Some None).

(** The earlier revision's imports: [Unmarshal] handed the nil pointer
    returns without error on an empty document and panics in reflect on any
    other, as yaml.v2 does when it sets a value it cannot address. *)
Definition earlier_types : Earlier.v1.Types := {|
  Earlier.v1.Workload := bytes;
  Earlier.v1.Accessory := bytes;
  Earlier.v1.GenericConfig := bytes;
  Earlier.v1.RuntimeConfigs := bytes;
  Earlier.v1.zero_Workload := [];
  Earlier.v1.zero_Accessory := [];
  Earlier.v1.zero_GenericConfig := []
|}.

Definition earlier_imports : @Earlier.Imports earlier_types :=
  @Earlier.Build_Imports earlier_types
    unmarshal unmarshal unmarshal
    (fun blob =>
       match blob with
       | [] => Returned None
       | _ => Panicked "reflect: reflect.Value.Set using unaddressable value"
       end)
    (fun g => ok (list_byte_of_string (@Earlier.Project earlier_types g)))
    (fun req =>
       match req with
       | Some r => Earlier.proto.Project r
       | None => "<nil>"
       end).

Definition earlier_request (workload runtime : option bytes)
  : Earlier.proto.GeneratorRequest := {|
  Earlier.proto.Project := "p";
  Earlier.proto.Stack := "s";
  Earlier.proto.App := "a";
  Earlier.proto.Workload := workload;
  Earlier.proto.DevModuleConfig := None;
  Earlier.proto.PlatformModuleConfig := None;
  Earlier.proto.RuntimeConfig := runtime
|}.

(** The earlier adapter on the same resources. *)
Definition earlier_resource_types : Earlier.v1.ResourceTypes := {|
  Earlier.v1.Resource := option bytes;
  Earlier.v1.context_Context := unit
|}.

Definition earlier_adapter_imports
  : @Earlier.AdapterImports earlier_types earlier_resource_types :=
  @Earlier.Build_AdapterImports earlier_types earlier_resource_types
    marshal (fun _ => "&{}") (fun _ => "{}").

Definition earlier_constant_module
    (response : option (@Earlier.GeneratorResponse earlier_resource_types))
    (err : option error)
  : @Earlier.FrameworkModuleWrapper earlier_types earlier_resource_types :=
  @Earlier.Build_FrameworkModuleWrapper earlier_types earlier_resource_types
    (@Earlier.Build_FrameworkModule earlier_types earlier_resource_types
       (fun _ _ => (response, err))).

Definition earlier_good_request : Earlier.proto.GeneratorRequest :=
  earlier_request (Some good_blob) None.

End Sample.

(** * Proof steps *)

(** Run a body as far as the known results of the library calls allow. *)
Ltac go_step := cbn.

Ltac run_assembler :=
  unfold Framework.NewGeneratorRequest, Framework.log_Infof; go_step;
  repeat match goal with
         | H : _ = ok _ |- _ => progress (rewrite H); go_step
         | H : _ = failed _ |- _ => progress (rewrite H); go_step
         end.

(** Close a goal that offers a response or an error, by the one the run gave. *)
Ltac one_of :=
  cbn [fst]; first [ left; eexists; reflexivity | right; eexists; reflexivity ].

(** Case analysis on the library call a hypothesis is stuck on. *)
Ltac split_decode H :=
  match type of H with
  | context [match ?t with ok _ => _ | failed _ => _ end] =>
      let E := fresh "E" in destruct t eqn:E; try discriminate H
  end.

(** * Properties of the current adapter *)

Section FrameworkProperties.
Context `{I : Framework.Imports}.
Import Framework.

(** ** Layer errors name their layer *)

Lemma layer_error_names_layer (l l' : Layer) (err err' : error) :
  layer_error l err = layer_error l' err' -> l = l'.
Proof.
  destruct l, l'; intros Heq; try reflexivity;
    unfold layer_error, fmt_Errorf in Heq; simpl in Heq; discriminate Heq.
Qed.

Lemma layer_error_unwrap (l : Layer) (err : error) :
  Unwrap (layer_error l err) = Some err.
Proof. destruct l; reflexivity. Qed.

Lemma In_attempts (r : proto.GeneratorRequest) (l upto : Layer) :
  In (Decode l) (attempts r upto) ->
  rank l <= rank upto /\ layer_blob l r <> None.
Proof.
  unfold attempts. rewrite in_map_iff. intros (l0 & Heq & Hin).
  injection Heq as ->. apply filter_In in Hin. destruct Hin as [_ Hb].
  apply andb_prop in Hb. destruct Hb as [Hle Hp]. split.
  - now apply PeanoNat.Nat.leb_le.
  - destruct (layer_blob l r); [ discriminate | discriminate Hp ].
Qed.

(** ** The assembler, case by case *)

(** When every layer decodes, the outcome is decided by the encoding of the
    assembled request alone. *)
Lemma NewGeneratorRequest_assembled (r : proto.GeneratorRequest) (g : GeneratorRequest) :
  layers_decode r g -> same_identifiers r g ->
  NewGeneratorRequest (Some r) =
    match yaml_Marshal_GeneratorRequest g with
    | failed err =>
        (Returned (None, Some (fmt_Errorf "marshal new generator request failed. " err "")),
         Log ("module proto request received:" ++ proto_String (Some r))
           :: attempts r LSecretStore)
    | ok out =>
        (Returned (Some g, None),
         Log ("module proto request received:" ++ proto_String (Some r))
           :: attempts r LSecretStore
           ++ [Log ("new generator request:" ++ string_of_list_byte out)])%list
    end.
Proof.
  destruct g as [gp gs ga gw gd gpc gc gss].
  destruct r as [p s a bw bd bp bc bs].
  unfold layers_decode, same_identifiers, decoded; simpl.
  intros (Hw & Hd & Hp & Hc & Hs) (-> & -> & ->).
  destruct bw, bd, bp, bc, bs;
    repeat match goal with H : ok _ = ok _ |- _ => injection H as <- end;
    run_assembler;
    destruct (yaml_Marshal_GeneratorRequest _); reflexivity.
Qed.

(** When a layer is malformed and every layer before it is absent or
    decodes, the assembler stops at that layer with the layer's error. *)
Lemma NewGeneratorRequest_first_failure
    (r : proto.GeneratorRequest) (l : Layer) (err : error) :
  malformed l r = Some err ->
  (forall l', rank l' < rank l -> malformed l' r = None) ->
  NewGeneratorRequest (Some r) =
    (Returned (None, Some (layer_error l err)),
     Log ("module proto request received:" ++ proto_String (Some r)) :: attempts r l).
Proof.
  intros Hm Hfirst.
  pose proof (Hfirst LWorkload) as H0. pose proof (Hfirst LDevConfig) as H1.
  pose proof (Hfirst LPlatformConfig) as H2. pose proof (Hfirst LContext) as H3.
  clear Hfirst.
  destruct r as [p s a bw bd bp bc bs].
  destruct l; unfold malformed, decode_error in *; cbn in Hm, H0, H1, H2, H3;
    first [ specialize (H0 ltac:(repeat constructor)) | clear H0 ];
    first [ specialize (H1 ltac:(repeat constructor)) | clear H1 ];
    first [ specialize (H2 ltac:(repeat constructor)) | clear H2 ];
    first [ specialize (H3 ltac:(repeat constructor)) | clear H3 ];
    destruct bw, bd, bp, bc, bs; try discriminate Hm;
    repeat match goal with
           | H : context [match _ with ok _ => _ | failed _ => _ end] |- _ =>
               split_decode H
           end;
    injection Hm as <-; run_assembler; reflexivity.
Qed.

(** Every request either assembles or has a first malformed layer. *)
Lemma assembled_or_first_failure (r : proto.GeneratorRequest) :
  (exists g, layers_decode r g /\ same_identifiers r g) \/
  (exists l err, malformed l r = Some err /\
                 forall l', rank l' < rank l -> malformed l' r = None).
Proof.
  assert (Hstep : forall l,
            (forall l', rank l' < rank l -> malformed l' r = None) ->
            malformed l r = None ->
            forall l', rank l' < S (rank l) -> malformed l' r = None).
  { intros l Hl Hnone l' Hlt.
    assert (rank l' < rank l \/ rank l' = rank l) as [Hlt' | Heq] by lia.
    - exact (Hl l' Hlt').
    - replace l' with l; [ exact Hnone | ].
      destruct l, l'; try reflexivity; discriminate Heq. }
  assert (F0 : forall l', rank l' < rank LWorkload -> malformed l' r = None)
    by (intros l' Hlt; inversion Hlt).
  destruct (malformed LWorkload r) as [e|] eqn:M0;
    [ right; exists LWorkload, e; auto | ].
  pose proof (Hstep LWorkload F0 M0) as F1.
  destruct (malformed LDevConfig r) as [e|] eqn:M1;
    [ right; exists LDevConfig, e; auto | ].
  pose proof (Hstep LDevConfig F1 M1) as F2.
  destruct (malformed LPlatformConfig r) as [e|] eqn:M2;
    [ right; exists LPlatformConfig, e; auto | ].
  pose proof (Hstep LPlatformConfig F2 M2) as F3.
  destruct (malformed LContext r) as [e|] eqn:M3;
    [ right; exists LContext, e; auto | ].
  pose proof (Hstep LContext F3 M3) as F4.
  destruct (malformed LSecretStore r) as [e|] eqn:M4;
    [ right; exists LSecretStore, e; auto | ].
  left. clear - M0 M1 M2 M3 M4.
  destruct r as [p s a bw bd bp bc bs].
  unfold malformed, decode_error in *; cbn in M0, M1, M2, M3, M4.
  assert (Hw : exists w, decoded yamlv2_Unmarshal_Accessory v1.zero_Accessory bw = ok w).
  { destruct bw; cbn; [ split_decode M0 | ]; eauto. }
  assert (Hd : exists d, decoded yaml_Unmarshal_Accessory v1.zero_Accessory bd = ok d).
  { destruct bd; cbn; [ split_decode M1 | ]; eauto. }
  assert (Hp : exists c, decoded yaml_Unmarshal_GenericConfig v1.zero_GenericConfig bp = ok c).
  { destruct bp; cbn; [ split_decode M2 | ]; eauto. }
  assert (Hc : exists c, decoded yaml_Unmarshal_GenericConfig v1.zero_GenericConfig bc = ok c).
  { destruct bc; cbn; [ split_decode M3 | ]; eauto. }
  assert (Hs : exists c, decoded yaml_Unmarshal_SecretStore v1.zero_SecretStore bs = ok c).
  { destruct bs; cbn; [ split_decode M4 | ]; eauto. }
  destruct Hw as [w Hw], Hd as [d Hd], Hp as [pc Hp], Hc as [c Hc], Hs as [ss Hs].
  exists (Build_GeneratorRequest p s a w d pc c ss).
  unfold layers_decode, same_identifiers; cbn. repeat split; assumption.
Qed.

(** The assembler always returns: it never panics, and it never returns both
    a request and an error, or neither. *)
Lemma NewGeneratorRequest_returns (req : option proto.GeneratorRequest) :
  exists t,
    (exists g, NewGeneratorRequest req = (Returned (Some g, None), t)) \/
    (exists err, NewGeneratorRequest req = (Returned (None, Some err), t)).
Proof.
  destruct req as [r|].
  - destruct (assembled_or_first_failure r) as [(g & Hd & Hi) | (l & err & Hm & Hf)].
    + rewrite (NewGeneratorRequest_assembled r g Hd Hi).
      destruct (yaml_Marshal_GeneratorRequest g); eauto.
    + rewrite (NewGeneratorRequest_first_failure r l err Hm Hf). eauto.
  - eexists. right. eexists. reflexivity.
Qed.

(** The assembler does not invoke the module. *)
Lemma NewGeneratorRequest_no_Invoke (req : option proto.GeneratorRequest) :
  ~ In Invoke (snd (NewGeneratorRequest req)).
Proof.
  assert (Hatt : forall r l, ~ In Invoke (attempts r l)).
  { intros r l Hin. unfold attempts in Hin. apply in_map_iff in Hin.
    destruct Hin as (l0 & Heq & _). discriminate Heq. }
  destruct req as [r|].
  - destruct (assembled_or_first_failure r) as [(g & Hd & Hi) | (l & err & Hm & Hf)].
    + rewrite (NewGeneratorRequest_assembled r g Hd Hi).
      destruct (yaml_Marshal_GeneratorRequest g); cbn [snd]; intros [Hin | Hin];
        try discriminate Hin; try (now apply Hatt in Hin).
      apply in_app_or in Hin. destruct Hin as [Hin | [Hin | []]];
        [ now apply Hatt in Hin | discriminate Hin ].
    + rewrite (NewGeneratorRequest_first_failure r l err Hm Hf).
      cbn [snd]; intros [Hin | Hin]; [ discriminate Hin | now apply Hatt in Hin ].
  - cbn. intros [Hin | []]. discriminate Hin.
Qed.

(** ** The adapter, path by path *)

(** Failure exit 1: an assembly error is returned as it is, and nothing
    else happens. *)
Lemma Generate_assembly_failed (f : FrameworkModuleWrapper) (ctx : v1.context_Context)
    (req : option proto.GeneratorRequest) request err t :
  NewGeneratorRequest req = (Returned (request, Some err), t) ->
  Generate f ctx req = (Returned (None, Some err), t).
Proof.
  intros HN. unfold Generate. rewrite HN. cbn. now rewrite app_nil_r.
Qed.

(** Failure exit 2: the module's error is returned as it is. *)
Lemma Generate_module_failed (f : FrameworkModuleWrapper) (ctx : v1.context_Context)
    (req : option proto.GeneratorRequest) request t response err :
  NewGeneratorRequest req = (Returned (request, None), t) ->
  FrameworkModule_Generate (Module_ f) ctx request = (response, Some err) ->
  Generate f ctx req = (Returned (None, Some err), t ++ [Invoke])%list.
Proof.
  intros HN HM. unfold Generate. rewrite HN. cbn. rewrite HM. cbn. reflexivity.
Qed.

(** The module returned no result. *)
Lemma Generate_no_response (f : FrameworkModuleWrapper) (ctx : v1.context_Context)
    (req : option proto.GeneratorRequest) request t :
  NewGeneratorRequest req = (Returned (request, None), t) ->
  FrameworkModule_Generate (Module_ f) ctx request = (None, None) ->
  Generate f ctx req =
    (Returned (Some {| proto.Resources := []; proto.Patcher := None |}, None),
     t ++ [Invoke; Log ("no resources generated by request:%v"
                        ++ Sprint_GeneratorRequest request)])%list.
Proof.
  intros HN HM. unfold Generate. rewrite HN. cbn. rewrite HM. cbn. reflexivity.
Qed.

(** The resource loop: it appends the encodings in order, or leaves the
    function at the first descriptor that does not encode. *)
Lemma marshal_resources_encoded {A : Type}
    (rs : list v1.Resource) (outs resources : list bytes) :
  Forall2 resource_encodes rs outs ->
  marshal_resources (A := A) rs resources = ret (resources ++ outs)%list.
Proof.
  intros Henc. revert resources.
  induction Henc as [| res out rs outs Hres _ IH]; intros resources; cbn.
  - now rewrite app_nil_r.
  - unfold resource_encodes in Hres. rewrite Hres, IH, <- app_assoc. reflexivity.
Qed.

Lemma marshal_resources_failed {A : Type}
    (rs : list v1.Resource) (resources : list bytes) :
  Exists resource_fails rs ->
  exists res err,
    In res rs /\ yaml_Marshal_Resource res = failed err /\
    marshal_resources (A := A) rs resources =
      return_ (None, Some (fmt_Errorf "marshal resource failed: " err
                             (". res:" ++ Sprint_Resource res))).
Proof.
  revert resources.
  induction rs as [| res rs IH]; intros resources Hex.
  - inversion Hex.
  - cbn [marshal_resources]. destruct (yaml_Marshal_Resource res) as [out | err] eqn:Hres.
    + assert (Htail : Exists resource_fails rs).
      { inversion Hex as [? ? [err Herr] | ? ? Ht]; subst; [ congruence | exact Ht ]. }
      destruct (IH (resources ++ [out])%list Htail) as (res' & err & Hin & Herr & Hrun).
      exists res', err. repeat split; [ now right | exact Herr | exact Hrun ].
    + exists res, err. repeat split; [ now left | exact Hres ].
Qed.

(** The module returned a result whose resources all encode: the response
    is decided by the patcher. *)
Lemma Generate_resources_encoded (f : FrameworkModuleWrapper) (ctx : v1.context_Context)
    (req : option proto.GeneratorRequest) request t response outs :
  NewGeneratorRequest req = (Returned (request, None), t) ->
  FrameworkModule_Generate (Module_ f) ctx request = (Some response, None) ->
  Forall2 resource_encodes (Resources response) outs ->
  Generate f ctx req =
    (match Patcher response with
     | None => Returned (Some {| proto.Resources := outs; proto.Patcher := None |}, None)
     | Some d =>
         match yaml_Marshal_Patcher d with
         | ok out =>
             Returned (Some {| proto.Resources := outs; proto.Patcher := Some out |}, None)
         | failed err =>
             Returned (None, Some (fmt_Errorf "marshal patcher failed: " err ". patcher:[]"))
         end
     end, t ++ [Invoke])%list.
Proof.
  intros HN HM Henc. unfold Generate. rewrite HN. cbn. rewrite HM. cbn.
  rewrite (marshal_resources_encoded _ _ _ Henc). cbn.
  destruct (Patcher response) as [d|]; [ destruct (yaml_Marshal_Patcher d) | ];
    cbn; rewrite ?app_nil_r; reflexivity.
Qed.

(** Failure exit 3: a resource does not encode. *)
Lemma Generate_resource_failed (f : FrameworkModuleWrapper) (ctx : v1.context_Context)
    (req : option proto.GeneratorRequest) request t response :
  NewGeneratorRequest req = (Returned (request, None), t) ->
  FrameworkModule_Generate (Module_ f) ctx request = (Some response, None) ->
  Exists resource_fails (Resources response) ->
  exists res err,
    In res (Resources response) /\ yaml_Marshal_Resource res = failed err /\
    Generate f ctx req =
      (Returned (None, Some (fmt_Errorf "marshal resource failed: " err
                               (". res:" ++ Sprint_Resource res))),
       t ++ [Invoke])%list.
Proof.
  intros HN HM Hex.
  destruct (marshal_resources_failed (A := proto.GeneratorResponse) _ [] Hex)
    as (res & err & Hin & Herr & Hrun).
  exists res, err. repeat split; [ exact Hin | exact Herr | ].
  unfold Generate. rewrite HN. cbn. rewrite HM. cbn. rewrite Hrun. cbn.
  rewrite ?app_nil_r. reflexivity.
Qed.

Lemma Forall_encodes (rs : list v1.Resource) :
  Forall (fun res => exists out, resource_encodes res out) rs ->
  exists outs, Forall2 resource_encodes rs outs.
Proof.
  induction 1 as [| res rs [out Hout] _ [outs IH]].
  - exists []. constructor.
  - exists (out :: outs). now constructor.
Qed.

Lemma split_run {A B : Type} (p : A * B) (a : A) :
  fst p = a -> p = (a, snd p).
Proof. destruct p; cbn; now intros ->. Qed.

Lemma layers_decode_not_malformed (r : proto.GeneratorRequest) (g : GeneratorRequest)
    (l : Layer) :
  layers_decode r g -> malformed l r = None.
Proof.
  destruct r as [p s a bw bd bp bc bs].
  unfold layers_decode, decoded, malformed, decode_error; cbn.
  intros (Hw & Hd & Hp & Hc & Hs).
  destruct l; cbn;
    match goal with |- match ?b with _ => _ end = None => destruct b end;
    try reflexivity;
    repeat match goal with H : _ = ok _ |- _ => rewrite H; clear H end; reflexivity.
Qed.

(** ** The claims about the current adapter *)

(** C1, as the code has it: for a wire request whose five layers all decode,
    [NewGeneratorRequest] returns the assembled request when its diagnostic
    re-serialization succeeds; when that re-serialization fails, the call
    returns no request and the error "marshal new generator request failed",
    which wraps the encoder's error. *)
Theorem NewGeneratorRequest_diagnostic_failure
    (r : proto.GeneratorRequest) (g : GeneratorRequest) :
  layers_decode r g -> same_identifiers r g ->
  (forall out, yaml_Marshal_GeneratorRequest g = ok out ->
     fst (NewGeneratorRequest (Some r)) = Returned (Some g, None)) /\
  (forall err, yaml_Marshal_GeneratorRequest g = failed err ->
     fst (NewGeneratorRequest (Some r)) =
       Returned (None, Some (fmt_Errorf "marshal new generator request failed. " err "")) /\
     Unwrap (fmt_Errorf "marshal new generator request failed. " err "") = Some err).
Proof.
  intros Hd Hi. rewrite (NewGeneratorRequest_assembled r g Hd Hi).
  split; [ intros out Hout | intros err Herr ]; rewrite ?Hout, ?Herr; auto.
Qed.

(** C4: when the module's generation function returns an absent result, the
    adapter returns the explicit empty wire response (no resources, no
    patch) and no error, whatever the request was. *)
Theorem Generate_absent_result (f : FrameworkModuleWrapper) (ctx : v1.context_Context)
    (req : option proto.GeneratorRequest) (request : option GeneratorRequest) :
  fst (NewGeneratorRequest req) = Returned (request, None) ->
  FrameworkModule_Generate (Module_ f) ctx request = (None, None) ->
  fst (Generate f ctx req) = Returned (EmptyResponse, None) /\
  EmptyResponse = Some {| proto.Resources := []; proto.Patcher := None |}.
Proof.
  intros HN HM. apply split_run in HN.
  rewrite (Generate_no_response f ctx req request _ HN HM). split; reflexivity.
Qed.

(** C5: when the module returns N resource descriptors that all encode, a
    wire response returned by the adapter holds exactly their N encodings, in
    the same order; and the adapter does return one when the patcher is
    absent or encodes. *)
Theorem Generate_resources_in_order (f : FrameworkModuleWrapper) (ctx : v1.context_Context)
    (req : option proto.GeneratorRequest) (request : option GeneratorRequest)
    (response : GeneratorResponse) (outs : list bytes) :
  fst (NewGeneratorRequest req) = Returned (request, None) ->
  FrameworkModule_Generate (Module_ f) ctx request = (Some response, None) ->
  Forall2 resource_encodes (Resources response) outs ->
  (forall wire err, fst (Generate f ctx req) = Returned (Some wire, err) ->
     proto.Resources wire = outs /\
     List.length (proto.Resources wire) = List.length (Resources response)) /\
  (Patcher response = None ->
     fst (Generate f ctx req) =
       Returned (Some {| proto.Resources := outs; proto.Patcher := None |}, None)) /\
  (forall d out, Patcher response = Some d -> yaml_Marshal_Patcher d = ok out ->
     fst (Generate f ctx req) =
       Returned (Some {| proto.Resources := outs; proto.Patcher := Some out |}, None)).
Proof.
  intros HN HM Henc. apply split_run in HN.
  rewrite (Generate_resources_encoded f ctx req request _ response outs HN HM Henc).
  cbn [fst]. split; [ | split ].
  - intros wire err Heq.
    assert (Hout : proto.Resources wire = outs).
    { destruct (Patcher response) as [d|]; [ destruct (yaml_Marshal_Patcher d) | ];
        inversion Heq; reflexivity. }
    split; [ exact Hout | ].
    rewrite Hout. symmetry. eapply Forall2_length; eassumption.
  - intros ->. reflexivity.
  - intros d out -> ->. reflexivity.
Qed.

(** C6: when some resource descriptor does not encode, or all of them encode
    and the patch descriptor does not, the adapter returns an error that
    wraps the encoder's, and no wire response. *)
Theorem Generate_encode_failure (f : FrameworkModuleWrapper) (ctx : v1.context_Context)
    (req : option proto.GeneratorRequest) (request : option GeneratorRequest)
    (response : GeneratorResponse) :
  fst (NewGeneratorRequest req) = Returned (request, None) ->
  FrameworkModule_Generate (Module_ f) ctx request = (Some response, None) ->
  Exists resource_fails (Resources response) \/
  (Forall (fun res => exists out, resource_encodes res out) (Resources response) /\
   patcher_fails (Patcher response)) ->
  exists err cause,
    fst (Generate f ctx req) = Returned (None, Some err) /\ Unwrap err = Some cause.
Proof.
  intros HN HM Hfail. apply split_run in HN.
  destruct Hfail as [Hres | [Hall (d & cause & Hd & Hcause)]].
  - destruct (Generate_resource_failed f ctx req request _ response HN HM Hres)
      as (res & cause & _ & _ & Hrun).
    rewrite Hrun. eexists; exists cause. split; reflexivity.
  - destruct (Forall_encodes _ Hall) as [outs Houts].
    rewrite (Generate_resources_encoded f ctx req request _ response outs HN HM Houts).
    rewrite Hd, Hcause. eexists; exists cause. split; reflexivity.
Qed.

(** C7: for each layer, when that layer's blob is present and malformed and
    every other layer is absent, assembly fails with the error that names
    exactly that layer and wraps the decoder's error, the adapter returns
    that error, and the module's generation function is not invoked. *)
Theorem malformed_layer_alone (f : FrameworkModuleWrapper) (ctx : v1.context_Context)
    (r : proto.GeneratorRequest) (l : Layer) (err : error) :
  malformed l r = Some err ->
  (forall l', l' <> l -> layer_blob l' r = None) ->
  fst (NewGeneratorRequest (Some r)) = Returned (None, Some (layer_error l err)) /\
  Unwrap (layer_error l err) = Some err /\
  (forall l' err', layer_error l err = layer_error l' err' -> l' = l) /\
  fst (Generate f ctx (Some r)) = Returned (None, Some (layer_error l err)) /\
  ~ In Invoke (snd (Generate f ctx (Some r))).
Proof.
  intros Hm Hothers.
  assert (Hfirst : forall l', rank l' < rank l -> malformed l' r = None).
  { intros l' Hlt. unfold malformed. rewrite Hothers; [ reflexivity | ].
    intros ->. lia. }
  pose proof (NewGeneratorRequest_first_failure r l err Hm Hfirst) as HN.
  pose proof (Generate_assembly_failed f ctx _ _ _ _ HN) as HG.
  repeat split.
  - now rewrite HN.
  - apply layer_error_unwrap.
  - intros l' err' Heq. symmetry. eapply layer_error_names_layer; eassumption.
  - now rewrite HG.
  - pose proof (NewGeneratorRequest_no_Invoke (Some r)) as Hno.
    rewrite HN in Hno. rewrite HG. exact Hno.
Qed.

(** C8: in a wire request with two or more malformed layers, the assembler
    reports the first malformed layer of its decode order (workload,
    devConfig, platformConfig, context, secretStore) and only that one: its
    error wraps that layer's decode error alone, and no later layer is handed
    to the decoder or named by the error. *)
Theorem first_failure_wins (r : proto.GeneratorRequest) (l1 l2 : Layer) (e1 e2 : error) :
  l1 <> l2 -> malformed l1 r = Some e1 -> malformed l2 r = Some e2 ->
  exists l err,
    malformed l r = Some err /\
    (forall l', rank l' < rank l -> malformed l' r = None) /\
    fst (NewGeneratorRequest (Some r)) = Returned (None, Some (layer_error l err)) /\
    Unwrap (layer_error l err) = Some err /\
    forall l', rank l < rank l' ->
      ~ In (Decode l') (snd (NewGeneratorRequest (Some r))) /\
      forall err', layer_error l err <> layer_error l' err'.
Proof.
  intros _ Hm1 _.
  destruct (assembled_or_first_failure r) as [(g & Hd & _) | (l & err & Hm & Hfirst)].
  - rewrite (layers_decode_not_malformed r g l1 Hd) in Hm1. discriminate Hm1.
  - exists l, err.
    rewrite (NewGeneratorRequest_first_failure r l err Hm Hfirst).
    repeat split; try assumption.
    + apply layer_error_unwrap.
    + cbn [snd]. intros [Hin | Hin]; [ discriminate Hin | ].
      apply In_attempts in Hin. lia.
    + intros err' Heq. apply layer_error_names_layer in Heq. subst l'. lia.
Qed.

End FrameworkProperties.

(** * The two revisions of the assembler *)

Section Revisions.
Context `{IE : Earlier.Imports} `{IF : Framework.Imports}.

(** The earlier assembler dereferences its argument before any check. *)
Lemma Earlier_NewGeneratorRequest_nil :
  Earlier.NewGeneratorRequest None =
    (Panicked nil_dereference,
     [Earlier.Log ("module proto request received:" ++ Earlier.proto_String None)]).
Proof. reflexivity. Qed.

(** The earlier assembler requires the workload layer. *)
Lemma Earlier_NewGeneratorRequest_no_workload (r : Earlier.proto.GeneratorRequest) :
  Earlier.proto.Workload r = None ->
  Earlier.NewGeneratorRequest (Some r) =
    (Returned (None, Some (errorString "workload in the request is nil")),
     [Earlier.Log ("module proto request received:" ++ Earlier.proto_String (Some r))]).
Proof.
  intros Hw. unfold Earlier.NewGeneratorRequest, Earlier.log_Infof. cbn.
  rewrite Hw. reflexivity.
Qed.

(** C2: on a wire request whose workload blob is nil, the earlier assembler
    returns the error "workload in the request is nil" and never a request.
    The current assembler does not decode the workload and accepts the
    request: when no other layer is malformed it assembles a request whose
    workload is the zero value and returns it (its re-serialization
    succeeding); every error it returns is the error of another, malformed
    layer or of the re-serialization, never one about the workload. *)
Theorem workload_required_then_optional
    (r0 : Earlier.proto.GeneratorRequest) (r : Framework.proto.GeneratorRequest) :
  Earlier.proto.Workload r0 = None ->
  Framework.proto.Workload r = None ->
  fst (Earlier.NewGeneratorRequest (Some r0)) =
    Returned (None, Some (errorString "workload in the request is nil")) /\
  ~ In (Framework.Decode Framework.LWorkload)
       (snd (Framework.NewGeneratorRequest (Some r))) /\
  (exists res, fst (Framework.NewGeneratorRequest (Some r)) = Returned res) /\
  (forall g err,
     fst (Framework.NewGeneratorRequest (Some r)) = Returned (Some g, err) ->
     Framework.Workload g = Framework.v1.zero_Accessory /\ err = None) /\
  (forall g err cause,
     fst (Framework.NewGeneratorRequest (Some r)) = Returned (g, Some err) ->
     err <> Framework.layer_error Framework.LWorkload cause) /\
  ((forall l, l <> Framework.LWorkload -> Framework.malformed l r = None) ->
   exists g,
     Framework.layers_decode r g /\ Framework.same_identifiers r g /\
     Framework.Workload g = Framework.v1.zero_Accessory /\
     (forall out, Framework.yaml_Marshal_GeneratorRequest g = ok out ->
        fst (Framework.NewGeneratorRequest (Some r)) = Returned (Some g, None)) /\
     (forall cause, Framework.yaml_Marshal_GeneratorRequest g = failed cause ->
        fst (Framework.NewGeneratorRequest (Some r)) =
          Returned (None, Some (fmt_Errorf "marshal new generator request failed. "
                                  cause "")))) /\
  (forall g err,
     fst (Framework.NewGeneratorRequest (Some r)) = Returned (g, Some err) ->
     (exists l cause,
        l <> Framework.LWorkload /\ Framework.malformed l r = Some cause /\
        err = Framework.layer_error l cause) \/
     (exists g' cause,
        Framework.layers_decode r g' /\
        Framework.Workload g' = Framework.v1.zero_Accessory /\
        Framework.yaml_Marshal_GeneratorRequest g' = failed cause /\
        err = fmt_Errorf "marshal new generator request failed. " cause "")).
Proof.
  intros Hw0 Hw.
  split; [ now rewrite (Earlier_NewGeneratorRequest_no_workload r0 Hw0) | ].
  assert (Hnot : Framework.malformed Framework.LWorkload r = None).
  { unfold Framework.malformed. cbn. now rewrite Hw. }
  destruct (assembled_or_first_failure r)
    as [(g & Hd & Hi) | (l & err & Hm & Hfirst)].
  - rewrite (NewGeneratorRequest_assembled r g Hd Hi).
    assert (Hzero : Framework.Workload g = Framework.v1.zero_Accessory).
    { destruct Hd as (Hd & _). rewrite Hw in Hd. cbn in Hd. now injection Hd. }
    assert (Hatt : ~ In (Framework.Decode Framework.LWorkload)
                        (Framework.attempts r Framework.LSecretStore)).
    { intros Hin. apply In_attempts in Hin. cbn in Hin. now destruct Hin. }
    assert (Haccept :
      exists g0,
        Framework.layers_decode r g0 /\ Framework.same_identifiers r g0 /\
        Framework.Workload g0 = Framework.v1.zero_Accessory /\
        (forall out, Framework.yaml_Marshal_GeneratorRequest g0 = ok out ->
           match Framework.yaml_Marshal_GeneratorRequest g with
           | ok _ => Returned (Some g, None)
           | failed e =>
               Returned (None, Some (fmt_Errorf "marshal new generator request failed. " e ""))
           end = Returned (Some g0, @None error)) /\
        (forall cause, Framework.yaml_Marshal_GeneratorRequest g0 = failed cause ->
           match Framework.yaml_Marshal_GeneratorRequest g with
           | ok _ => Returned (Some g, @None error)
           | failed e =>
               Returned (None, Some (fmt_Errorf "marshal new generator request failed. " e ""))
           end =
           Returned (None, Some (fmt_Errorf "marshal new generator request failed. "
                                   cause "")))).
    { exists g. repeat split; try assumption; try apply Hd; try apply Hi.
      - intros out Hout. now rewrite Hout.
      - intros cause Hcause. now rewrite Hcause. }
    destruct (Framework.yaml_Marshal_GeneratorRequest g) as [out | cause0] eqn:Hmar;
      cbn [fst snd];
      refine (conj _ (conj _ (conj _ (conj _ (conj (fun _ => Haccept) _))))).
    + intros [Hin | Hin]; [ discriminate Hin | ]. apply in_app_or in Hin.
      destruct Hin as [Hin | [Hin | []]]; [ auto | discriminate Hin ].
    + eauto.
    + intros g' err Heq. injection Heq as <- <-. auto.
    + intros g' err cause Heq. discriminate Heq.
    + intros g' err Heq. discriminate Heq.
    + intros [Hin | Hin]; [ discriminate Hin | auto ].
    + eauto.
    + intros g' err Heq. discriminate Heq.
    + intros g' err cause Heq. injection Heq as _ <-.
      unfold Framework.layer_error, fmt_Errorf. cbn. discriminate.
    + intros g' err Heq. injection Heq as _ <-. right.
      exists g, cause0. repeat split; try assumption; apply Hd.
  - rewrite (NewGeneratorRequest_first_failure r l err Hm Hfirst).
    assert (Hl : l <> Framework.LWorkload) by (intros ->; congruence).
    cbn [fst snd]. refine (conj _ (conj _ (conj _ (conj _ (conj _ _))))).
    + intros [Hin | Hin]; [ discriminate Hin | ].
      apply In_attempts in Hin. cbn in Hin. now destruct Hin.
    + eauto.
    + intros g' err' Heq. discriminate Heq.
    + intros g' err' cause Heq. injection Heq as _ <-. intros Heq.
      apply layer_error_names_layer in Heq. contradiction.
    + intros Hnone. rewrite (Hnone l Hl) in Hm. discriminate Hm.
    + intros g' err' Heq. injection Heq as _ <-. left. exists l, err. auto.
Qed.

(** C3, run on the nil wire request: the current assembler returns the
    error "empty generator request" and the adapter returns it without
    invoking the module; the earlier assembler panics on a nil pointer
    dereference instead of returning an error. *)
Theorem nil_request_rejected_or_panics
    (f : Framework.FrameworkModuleWrapper) (ctx : Framework.v1.context_Context) :
  fst (Framework.NewGeneratorRequest None) =
    Returned (None, Some (errors_New "empty generator request")) /\
  fst (Framework.Generate f ctx None) =
    Returned (None, Some (errors_New "empty generator request")) /\
  ~ In Framework.Invoke (snd (Framework.Generate f ctx None)) /\
  fst (Earlier.NewGeneratorRequest None) = Panicked nil_dereference.
Proof.
  repeat split.
  cbn. intros [Hin | []]. discriminate Hin.
Qed.

(** C10: a request the earlier assembler returns has a nil [RuntimeConfig],
    whatever the runtime-config blob was. *)
Theorem Earlier_RuntimeConfig_never_stored
    (req : option Earlier.proto.GeneratorRequest)
    (g : Earlier.GeneratorRequest) (err : option error) :
  fst (Earlier.NewGeneratorRequest req) = Returned (Some g, err) ->
  Earlier.RuntimeConfig g = None.
Proof.
  destruct req as [[p s a bw bd bp bc]|]; [ | discriminate ].
  unfold Earlier.NewGeneratorRequest, Earlier.log_Infof. cbn.
  destruct bw as [bw|]; [ | discriminate ]. cbn.
  destruct (Earlier.yaml_Unmarshal_Workload bw _); [ | discriminate ]. cbn.
  destruct bd as [bd|];
    [ destruct (Earlier.yaml_Unmarshal_Accessory bd _); [ | discriminate ] | ]; cbn;
    (destruct bp as [bp|];
       [ destruct (Earlier.yaml_Unmarshal_GenericConfig bp _); [ | discriminate ] | ]); cbn;
    (destruct bc as [bc|];
       [ destruct (Earlier.yaml_Unmarshal_nil_RuntimeConfigs bc) as [[e|]|];
         try discriminate | ]); cbn;
    (match goal with
     | |- context [Earlier.yaml_Marshal_GeneratorRequest ?x] =>
         destruct (Earlier.yaml_Marshal_GeneratorRequest x)
     end); cbn; intros Heq; inversion Heq; reflexivity.
Qed.
End Revisions.

(** * The properties on the sample implementations *)

Lemma NewGeneratorRequest_diagnostic_failure_witness :
  (forall out,
     @Framework.yaml_Marshal_GeneratorRequest _ (Sample.imports false)
       Sample.layered_assembled = ok out ->
     fst (@Framework.NewGeneratorRequest _ (Sample.imports false) (Some Sample.layered))
       = Returned (Some Sample.layered_assembled, None)) /\
  (forall err,
     @Framework.yaml_Marshal_GeneratorRequest _ (Sample.imports false)
       Sample.layered_assembled = failed err ->
     fst (@Framework.NewGeneratorRequest _ (Sample.imports false) (Some Sample.layered))
       = Returned (None, Some (fmt_Errorf "marshal new generator request failed. " err "")) /\
     Unwrap (fmt_Errorf "marshal new generator request failed. " err "") = Some err).
Proof.
  apply (@NewGeneratorRequest_diagnostic_failure Sample.types (Sample.imports false)
           Sample.layered Sample.layered_assembled).
  - vm_compute. repeat split.
  - vm_compute. repeat split.
Defined.

(** C1 as stated fails: every layer of the sample request decodes, its
    re-serialization fails, and the call returns the error, not the
    assembled request. *)
Lemma diagnostic_failure_counterexample :
  @Framework.layers_decode _ (Sample.imports false) Sample.layered Sample.layered_assembled /\
  @Framework.same_identifiers _ Sample.layered Sample.layered_assembled /\
  fst (@Framework.NewGeneratorRequest _ (Sample.imports false) (Some Sample.layered))
    = Returned (None, Some (wrapError
        "marshal new generator request failed. yaml: cannot marshal the request"
        (errorString "yaml: cannot marshal the request"))) /\
  fst (@Framework.NewGeneratorRequest _ (Sample.imports false) (Some Sample.layered))
    <> Returned (Some Sample.layered_assembled, None).
Proof.
  repeat split; vm_compute; discriminate.
Qed.

Lemma workload_required_then_optional_witness :
  fst (@Earlier.NewGeneratorRequest _ Sample.earlier_imports
         (Some (Sample.earlier_request None None)))
    = Returned (None, Some (errorString "workload in the request is nil")) /\
  exists g,
    @Framework.Workload Sample.types g = [] /\
    fst (@Framework.NewGeneratorRequest _ (Sample.imports true) (Some Sample.bare))
      = Returned (Some g, None).
Proof.
  destruct (@workload_required_then_optional
              Sample.earlier_types Sample.earlier_imports
              Sample.types (Sample.imports true)
              (Sample.earlier_request None None) Sample.bare
              eq_refl eq_refl) as (Hearlier & _ & _ & _ & _ & Haccept & _).
  split; [ exact Hearlier | ].
  destruct Haccept as (g & _ & _ & Hzero & Hok & _).
  - intros l _. destruct l; reflexivity.
  - exists g. split; [ exact Hzero | ].
    destruct (@Framework.yaml_Marshal_GeneratorRequest _ (Sample.imports true) g)
      as [out | cause] eqn:Hmar; [ exact (Hok out eq_refl) | discriminate Hmar ].
Defined.

Lemma Generate_absent_result_witness :
  fst (@Framework.Generate _ (Sample.imports true)
         (Sample.constant_module None None) tt (Some Sample.bare))
    = Returned (Some {| Framework.proto.Resources := [];
                        Framework.proto.Patcher := None |}, None).
Proof.
  apply (@Generate_absent_result Sample.types (Sample.imports true)
           (Sample.constant_module None None) tt (Some Sample.bare)
           (Some (@Framework.zero_layers Sample.types Sample.bare))
           eq_refl eq_refl).
Defined.

Lemma Generate_resources_in_order_witness :
  fst (@Framework.Generate _ (Sample.imports true)
         (Sample.constant_module (Some Sample.two_resources) None) tt (Some Sample.bare))
    = Returned (Some {| Framework.proto.Resources := [Sample.good_blob; [x62]];
                        Framework.proto.Patcher := Some Sample.good_blob |}, None).
Proof.
  refine (proj2 (proj2
    (@Generate_resources_in_order Sample.types (Sample.imports true)
       (Sample.constant_module (Some Sample.two_resources) None) tt (Some Sample.bare)
       (Some (@Framework.zero_layers Sample.types Sample.bare))
       Sample.two_resources [Sample.good_blob; [x62]]
       eq_refl eq_refl _)) (Some Sample.good_blob) Sample.good_blob eq_refl eq_refl).
  repeat constructor.
Defined.

Lemma Generate_encode_failure_witness :
  (exists err cause,
     fst (@Framework.Generate _ (Sample.imports true)
            (Sample.constant_module (Some Sample.unencodable_resource) None)
            tt (Some Sample.bare)) = Returned (None, Some err) /\
     Unwrap err = Some cause) /\
  (exists err cause,
     fst (@Framework.Generate _ (Sample.imports true)
            (Sample.constant_module (Some Sample.unencodable_patcher) None)
            tt (Some Sample.bare)) = Returned (None, Some err) /\
     Unwrap err = Some cause).
Proof.
  split.
  - apply (@Generate_encode_failure Sample.types (Sample.imports true)
             (Sample.constant_module (Some Sample.unencodable_resource) None)
             tt (Some Sample.bare)
             (Some (@Framework.zero_layers Sample.types Sample.bare))
             Sample.unencodable_resource eq_refl eq_refl).
    left. apply Exists_cons_tl, Exists_cons_hd.
    exists (errorString "cannot marshal type: func()"). reflexivity.
  - apply (@Generate_encode_failure Sample.types (Sample.imports true)
             (Sample.constant_module (Some Sample.unencodable_patcher) None)
             tt (Some Sample.bare)
             (Some (@Framework.zero_layers Sample.types Sample.bare))
             Sample.unencodable_patcher eq_refl eq_refl).
    right. split.
    + repeat constructor. exists Sample.good_blob. reflexivity.
    + exists None, (errorString "cannot marshal type: func()"). split; reflexivity.
Defined.

Lemma malformed_layer_alone_witness :
  fst (@Framework.Generate _ (Sample.imports true)
         (Sample.constant_module None None) tt
         (Some (Sample.with_layer Framework.LWorkload Sample.malformed_blob Sample.bare)))
    = Returned (None, Some (wrapError
        "unmarshal workload failed. yaml: found character that cannot start any token"
        (errorString "yaml: found character that cannot start any token"))) /\
  ~ In Framework.Invoke
      (snd (@Framework.Generate _ (Sample.imports true)
              (Sample.constant_module None None) tt
              (Some (Sample.with_layer Framework.LWorkload Sample.malformed_blob
                       Sample.bare)))).
Proof.
  assert (Hothers : forall l', l' <> Framework.LWorkload ->
            Framework.layer_blob l'
              (Sample.with_layer Framework.LWorkload Sample.malformed_blob Sample.bare)
            = None).
  { intros l' Hl'. destruct l'; try reflexivity. now elim Hl'. }
  destruct (@malformed_layer_alone Sample.types (Sample.imports true)
              (Sample.constant_module None None) tt
              (Sample.with_layer Framework.LWorkload Sample.malformed_blob Sample.bare)
              Framework.LWorkload
              (errorString "yaml: found character that cannot start any token")
              eq_refl Hothers) as (_ & _ & _ & Hgen & Hno).
  split; [ exact Hgen | exact Hno ].
Defined.

Lemma first_failure_wins_witness :
  exists l err,
    @Framework.malformed _ (Sample.imports true) l Sample.two_malformed = Some err /\
    (forall l', Framework.rank l' < Framework.rank l ->
       @Framework.malformed _ (Sample.imports true) l' Sample.two_malformed = None) /\
    fst (@Framework.NewGeneratorRequest _ (Sample.imports true) (Some Sample.two_malformed))
      = Returned (None, Some (@Framework.layer_error l err)) /\
    Unwrap (Framework.layer_error l err) = Some err /\
    forall l', Framework.rank l < Framework.rank l' ->
      ~ In (Framework.Decode l')
          (snd (@Framework.NewGeneratorRequest _ (Sample.imports true)
                  (Some Sample.two_malformed))) /\
      forall err', Framework.layer_error l err <> Framework.layer_error l' err'.
Proof.
  apply (@first_failure_wins Sample.types (Sample.imports true) Sample.two_malformed
           Framework.LContext Framework.LSecretStore
           (errorString "yaml: found character that cannot start any token")
           (errorString "yaml: found character that cannot start any token")).
  - discriminate.
  - reflexivity.
  - reflexivity.
Defined.



Lemma Earlier_RuntimeConfig_never_stored_witness :
  fst (@Earlier.NewGeneratorRequest _ Sample.earlier_imports
         (Some (Sample.earlier_request (Some Sample.good_blob) (Some []))))
    = Returned (Some (@Earlier.Build_GeneratorRequest Sample.earlier_types
                        "p" "s" "a" (Some Sample.good_blob) [] [] None), None) /\
  @Earlier.RuntimeConfig Sample.earlier_types
    (@Earlier.Build_GeneratorRequest Sample.earlier_types
       "p" "s" "a" (Some Sample.good_blob) [] [] None) = None.
Proof.
  split; [ reflexivity | ].
  apply (@Earlier_RuntimeConfig_never_stored Sample.earlier_types Sample.earlier_imports
           (Some (Sample.earlier_request (Some Sample.good_blob) (Some [])))
           _ None).
  reflexivity.
Defined.

(** * Further properties of the current adapter *)

Section FrameworkFurther.
Context `{I : Framework.Imports}.
Import Framework.

Lemma attempts_In (r : proto.GeneratorRequest) (l upto : Layer) :
  rank l <= rank upto -> layer_blob l r <> None -> In (Decode l) (attempts r upto).
Proof.
  intros Hle Hblob. unfold attempts. apply in_map, filter_In. split.
  - destruct l; cbn; auto 10.
  - apply andb_true_intro. split; [ now apply Nat.leb_le | ].
    destruct (layer_blob l r); [ reflexivity | now elim Hblob ].
Qed.

Lemma invocations_app (t t' : list event) :
  invocations (t ++ t') = invocations t + invocations t'.
Proof. unfold invocations. now rewrite filter_app, length_app. Qed.

Lemma invocations_none (t : list event) :
  ~ In Invoke t -> invocations t = 0.
Proof.
  unfold invocations. induction t as [| e t IH]; intros Hno; [ reflexivity | ].
  destruct e; cbn; try (apply IH; intros Hin; apply Hno; now right).
  elim Hno. now left.
Qed.

(** The resource loop emits no event, and either encodes every resource or
    meets one that does not encode. *)
Lemma marshal_resources_cases (rs : list v1.Resource) :
  (exists outs, Forall2 resource_encodes rs outs) \/ Exists resource_fails rs.
Proof.
  induction rs as [| res rs [[outs IH] | IH]].
  - left. exists []. constructor.
  - destruct (yaml_Marshal_Resource res) as [out | err] eqn:Hres.
    + left. exists (out :: outs). constructor; assumption.
    + right. apply Exists_cons_hd. exists err. exact Hres.
  - right. apply Exists_cons_tl. exact IH.
Qed.

Lemma marshal_resources_first_failure {A : Type}
    (pre post : list v1.Resource) (res : v1.Resource) (err : error)
    (resources : list bytes) :
  Forall (fun res' => exists out, resource_encodes res' out) pre ->
  yaml_Marshal_Resource res = failed err ->
  marshal_resources (A := A) (pre ++ res :: post) resources =
    return_ (None, Some (fmt_Errorf "marshal resource failed: " err
                           (". res:" ++ Sprint_Resource res))).
Proof.
  intros Hpre Hres. revert resources.
  induction Hpre as [| res' pre [out Hout] _ IH]; intros resources; cbn.
  - now rewrite Hres.
  - unfold resource_encodes in Hout. rewrite Hout. apply IH.
Qed.

(** X1: a request the assembler returns comes from a wire request that is
    not nil, carries its three identifiers, holds in each layer the decoded
    blob or the zero value, and comes with no error. *)
Theorem NewGeneratorRequest_sound
    (req : option proto.GeneratorRequest) (g : GeneratorRequest) (err : option error) :
  fst (NewGeneratorRequest req) = Returned (Some g, err) ->
  exists r,
    req = Some r /\ same_identifiers r g /\ layers_decode r g /\ err = None /\
    exists out, yaml_Marshal_GeneratorRequest g = ok out.
Proof.
  destruct req as [r|]; [ | cbn; discriminate ].
  intros Hret. exists r.
  destruct (assembled_or_first_failure r) as [(g' & Hd & Hi) | (l & e & Hm & Hfirst)].
  - rewrite (NewGeneratorRequest_assembled r g' Hd Hi) in Hret.
    destruct (yaml_Marshal_GeneratorRequest g') as [out | e] eqn:Hout;
      cbn in Hret; inversion Hret; subst. eauto 10.
  - rewrite (NewGeneratorRequest_first_failure r l e Hm Hfirst) in Hret.
    discriminate Hret.
Qed.

(** X2: the decoder is called on a layer exactly when the layer's blob is
    not nil (an empty blob counts as present) and no earlier layer is
    malformed. *)
Theorem Decode_exactly_when_reached (r : proto.GeneratorRequest) (l : Layer) :
  In (Decode l) (snd (NewGeneratorRequest (Some r))) <->
  layer_blob l r <> None /\ forall l', rank l' < rank l -> malformed l' r = None.
Proof.
  assert (Hmax : rank l <= rank LSecretStore) by (destruct l; cbn; lia).
  destruct (assembled_or_first_failure r) as [(g & Hd & Hi) | (l0 & e & Hm & Hfirst)].
  - rewrite (NewGeneratorRequest_assembled r g Hd Hi).
    assert (Hnone : forall l', malformed l' r = None)
      by (intros l'; eapply layers_decode_not_malformed; eassumption).
    split.
    + intros Hin.
      assert (Hatt : In (Decode l) (attempts r LSecretStore)).
      { destruct (yaml_Marshal_GeneratorRequest g); cbn [snd] in Hin;
          destruct Hin as [Hin | Hin]; try discriminate Hin; auto.
        apply in_app_or in Hin. destruct Hin as [Hin | [Hin | []]];
          [ exact Hin | discriminate Hin ]. }
      apply In_attempts in Hatt. split; [ now destruct Hatt | auto ].
    + intros [Hblob _]. pose proof (attempts_In r l LSecretStore Hmax Hblob) as Hatt.
      destruct (yaml_Marshal_GeneratorRequest g); cbn [snd]; right; auto.
      apply in_or_app. now left.
  - rewrite (NewGeneratorRequest_first_failure r l0 e Hm Hfirst). cbn [snd]. split.
    + intros [Hin | Hin]; [ discriminate Hin | ].
      apply In_attempts in Hin. destruct Hin as [Hle Hblob].
      split; [ exact Hblob | ]. intros l' Hlt. apply Hfirst. lia.
    + intros [Hblob Hearlier]. right. apply attempts_In; [ | exact Hblob ].
      destruct (Nat.le_gt_cases (rank l) (rank l0)) as [Hle | Hgt]; [ exact Hle | ].
      rewrite (Hearlier l0 Hgt) in Hm. discriminate Hm.
Qed.

(** X3: in every run in which the collaborators return (the module's
    generation function and yaml's [Marshal], which the imports take as
    functions that return), [Generate] returns exactly one of a wire
    response and an error, never both and never neither, whatever the wire
    request is. *)
Theorem Generate_response_xor_error (f : FrameworkModuleWrapper)
    (ctx : v1.context_Context) (req : option proto.GeneratorRequest) :
  (exists wire, fst (Generate f ctx req) = Returned (Some wire, None)) \/
  (exists err, fst (Generate f ctx req) = Returned (None, Some err)).
Proof.
  destruct (NewGeneratorRequest_returns req) as [t [[g HN] | [err HN]]].
  - destruct (FrameworkModule_Generate (Module_ f) ctx (Some g))
      as [[response|] [merr|]] eqn:HM.
    + rewrite (Generate_module_failed f ctx req _ t _ _ HN HM). one_of.
    + destruct (marshal_resources_cases (Resources response)) as [[outs Henc] | Hfail].
      * rewrite (Generate_resources_encoded f ctx req _ t response outs HN HM Henc).
        destruct (Patcher response) as [d|]; [ destruct (yaml_Marshal_Patcher d) | ];
          cbn [fst]; one_of.
      * destruct (Generate_resource_failed f ctx req _ t response HN HM Hfail)
          as (res & err & _ & _ & Hrun).
        rewrite Hrun. one_of.
    + rewrite (Generate_module_failed f ctx req _ t _ _ HN HM). one_of.
    + rewrite (Generate_no_response f ctx req _ t HN HM). one_of.
  - rewrite (Generate_assembly_failed f ctx req _ _ t HN). one_of.
Qed.

(** X4: [Generate] invokes the module once when assembly succeeds, and not
    at all when it fails. *)
Theorem Generate_invokes_once_when_assembled (f : FrameworkModuleWrapper)
    (ctx : v1.context_Context) (req : option proto.GeneratorRequest) :
  invocations (snd (Generate f ctx req)) =
    match fst (NewGeneratorRequest req) with
    | Returned (Some _, None) => 1
    | _ => 0
    end.
Proof.
  pose proof (NewGeneratorRequest_no_Invoke req) as Hno.
  apply invocations_none in Hno.
  destruct (NewGeneratorRequest_returns req) as [t [[g HN] | [err HN]]];
    rewrite HN in Hno |- *; cbn [fst snd] in Hno |- *.
  - destruct (FrameworkModule_Generate (Module_ f) ctx (Some g))
      as [[response|] [merr|]] eqn:HM.
    + rewrite (Generate_module_failed f ctx req _ t _ _ HN HM).
      cbn [snd]. rewrite invocations_app, Hno. reflexivity.
    + destruct (marshal_resources_cases (Resources response)) as [[outs Henc] | Hfail].
      * rewrite (Generate_resources_encoded f ctx req _ t response outs HN HM Henc).
        cbn [snd]. rewrite invocations_app, Hno. reflexivity.
      * destruct (Generate_resource_failed f ctx req _ t response HN HM Hfail)
          as (res & err & _ & _ & Hrun).
        rewrite Hrun. cbn [snd]. rewrite invocations_app, Hno. reflexivity.
    + rewrite (Generate_module_failed f ctx req _ t _ _ HN HM).
      cbn [snd]. rewrite invocations_app, Hno. reflexivity.
    + rewrite (Generate_no_response f ctx req _ t HN HM).
      cbn [snd]. rewrite invocations_app, Hno. reflexivity.
  - rewrite (Generate_assembly_failed f ctx req _ _ t HN). exact Hno.
Qed.

(** X5: an error of the module is returned as it is, with no wire response,
    also when the module returned a result beside it. *)
Theorem Generate_module_error_unchanged (f : FrameworkModuleWrapper)
    (ctx : v1.context_Context) (req : option proto.GeneratorRequest)
    (request : option GeneratorRequest) (response : option GeneratorResponse)
    (err : error) :
  fst (NewGeneratorRequest req) = Returned (request, None) ->
  FrameworkModule_Generate (Module_ f) ctx request = (response, Some err) ->
  fst (Generate f ctx req) = Returned (None, Some err).
Proof.
  intros HN HM. apply split_run in HN.
  now rewrite (Generate_module_failed f ctx req _ _ _ _ HN HM).
Qed.

(** X6: an error of the assembler is returned by [Generate] as it is, and
    [Generate] does nothing more than the assembler did. *)
Theorem Generate_assembly_error_unchanged (f : FrameworkModuleWrapper)
    (ctx : v1.context_Context) (req : option proto.GeneratorRequest)
    (request : option GeneratorRequest) (err : error) :
  fst (NewGeneratorRequest req) = Returned (request, Some err) ->
  Generate f ctx req = (Returned (None, Some err), snd (NewGeneratorRequest req)).
Proof.
  intros HN. apply split_run in HN.
  exact (Generate_assembly_failed f ctx req _ _ _ HN).
Qed.

(** X7: the error of [Generate] is that of the first resource that does not
    encode: it wraps that resource's encoding error and prints that
    resource, whatever follows it and whatever the patcher is. *)
Theorem Generate_first_failing_resource (f : FrameworkModuleWrapper)
    (ctx : v1.context_Context) (req : option proto.GeneratorRequest)
    (request : option GeneratorRequest) (response : GeneratorResponse)
    (pre post : list v1.Resource) (res : v1.Resource) (err : error) :
  fst (NewGeneratorRequest req) = Returned (request, None) ->
  FrameworkModule_Generate (Module_ f) ctx request = (Some response, None) ->
  Resources response = (pre ++ res :: post)%list ->
  Forall (fun res' => exists out, resource_encodes res' out) pre ->
  yaml_Marshal_Resource res = failed err ->
  fst (Generate f ctx req) =
    Returned (None, Some (fmt_Errorf "marshal resource failed: " err
                            (". res:" ++ Sprint_Resource res))).
Proof.
  intros HN HM Hrs Hpre Hres. apply split_run in HN.
  unfold Generate. rewrite HN. cbn. rewrite HM. cbn. rewrite Hrs.
  rewrite (marshal_resources_first_failure pre post res err [] Hpre Hres).
  reflexivity.
Qed.

(** X8: a wire response [Generate] returns comes with no error and is the
    encoding of the module's result: the empty response for an absent result;
    otherwise the encodings of its resources, in order, and the encoding of
    its patcher, absent when the patcher is. *)
Theorem Generate_response_sound (f : FrameworkModuleWrapper)
    (ctx : v1.context_Context) (req : option proto.GeneratorRequest)
    (request : option GeneratorRequest) (response : option GeneratorResponse)
    (merr err : option error) (wire : proto.GeneratorResponse) :
  fst (NewGeneratorRequest req) = Returned (request, None) ->
  FrameworkModule_Generate (Module_ f) ctx request = (response, merr) ->
  fst (Generate f ctx req) = Returned (Some wire, err) ->
  merr = None /\ err = None /\
  match response with
  | None => wire = {| proto.Resources := []; proto.Patcher := None |}
  | Some response =>
      Forall2 resource_encodes (Resources response) (proto.Resources wire) /\
      match Patcher response with
      | None => proto.Patcher wire = None
      | Some d => exists out, yaml_Marshal_Patcher d = ok out /\
                              proto.Patcher wire = Some out
      end
  end.
Proof.
  intros HN HM HG. apply split_run in HN.
  destruct merr as [merr|].
  { rewrite (Generate_module_failed f ctx req _ _ _ _ HN HM) in HG. discriminate HG. }
  destruct response as [response|].
  - destruct (marshal_resources_cases (Resources response)) as [[outs Henc] | Hfail].
    + rewrite (Generate_resources_encoded f ctx req _ _ response outs HN HM Henc) in HG.
      cbn [fst] in HG.
      destruct (Patcher response) as [d|];
        [ destruct (yaml_Marshal_Patcher d) as [out | e] eqn:Hd | ];
        inversion HG; subst; cbn; repeat split; try assumption.
      exists out. split; reflexivity.
    + destruct (Generate_resource_failed f ctx req _ _ response HN HM Hfail)
        as (res & e & _ & _ & Hrun).
      rewrite Hrun in HG. discriminate HG.
  - rewrite (Generate_no_response f ctx req _ _ HN HM) in HG.
    inversion HG. auto.
Qed.

(** X9: a module result with no resource and no patcher gives the same wire
    response as an absent result, the empty response. *)
Theorem Generate_empty_result (f : FrameworkModuleWrapper)
    (ctx : v1.context_Context) (req : option proto.GeneratorRequest)
    (request : option GeneratorRequest) (response : GeneratorResponse) :
  fst (NewGeneratorRequest req) = Returned (request, None) ->
  FrameworkModule_Generate (Module_ f) ctx request = (Some response, None) ->
  Resources response = [] -> Patcher response = None ->
  fst (Generate f ctx req) = Returned (EmptyResponse, None).
Proof.
  intros HN HM Hrs Hp. apply split_run in HN.
  assert (Henc : Forall2 resource_encodes (Resources response) [])
    by (rewrite Hrs; constructor).
  rewrite (Generate_resources_encoded f ctx req _ _ response [] HN HM Henc), Hp.
  reflexivity.
Qed.
End FrameworkFurther.

(** * Further properties of the earlier revision *)

Section EarlierFurther.
Context {T : Earlier.v1.Types} {RT : Earlier.v1.ResourceTypes}
  {I : @Earlier.Imports T} {IA : @Earlier.AdapterImports T RT}.
Import Earlier.

Lemma Earlier_marshal_resources_encoded {A : Type}
    (rs : list v1.Resource) (outs resources : list bytes) :
  Forall2 resource_encodes rs outs ->
  marshal_resources (A := A) rs resources = ret (resources ++ outs)%list.
Proof.
  intros Henc. revert resources.
  induction Henc as [| res out rs outs Hres _ IH]; intros resources; cbn.
  - now rewrite app_nil_r.
  - unfold resource_encodes in Hres. rewrite Hres, IH, <- app_assoc. reflexivity.
Qed.

Lemma Earlier_marshal_resources_first_failure {A : Type}
    (pre post : list v1.Resource) (res : v1.Resource) (err : error)
    (resources : list bytes) :
  Forall (fun res' => exists out, resource_encodes res' out) pre ->
  yaml_Marshal_Resource res = failed err ->
  marshal_resources (A := A) (pre ++ res :: post) resources =
    return_ (None, Some (fmt_Errorf "marshal resource failed: " err
                           (". res:" ++ Sprint_Resource res))).
Proof.
  intros Hpre Hres. revert resources.
  induction Hpre as [| res' pre [out Hout] _ IH]; intros resources; cbn.
  - now rewrite Hres.
  - unfold resource_encodes in Hout. rewrite Hout. apply IH.
Qed.

(** X10: the earlier adapter answers a module result that holds no resource
    (a nil result, a nil slice or an empty slice) with the empty response
    and no error. *)
Theorem Earlier_Generate_no_resources (f : FrameworkModuleWrapper)
    (ctx : v1.context_Context) (req : option proto.GeneratorRequest)
    (request : option GeneratorRequest) (fwResources : option GeneratorResponse) :
  fst (NewGeneratorRequest req) = Returned (request, None) ->
  FrameworkModule_Generate (Module_ f) ctx request = (fwResources, None) ->
  resources_of fwResources = [] ->
  fst (Generate f ctx req) = Returned (EmptyResponse, None) /\
  EmptyResponse = Some {| proto.Resources := [] |}.
Proof.
  intros HN HM Hnone. apply split_run in HN. split; [ | reflexivity ].
  unfold Generate. rewrite HN. cbn. rewrite HM. cbn.
  destruct fwResources as [[[rs|]]|]; cbn in Hnone |- *; try reflexivity.
  subst rs. reflexivity.
Qed.

(** X11: when the module's resources all encode, the earlier adapter returns
    their encodings, as many and in the same order. *)
Theorem Earlier_Generate_resources_in_order (f : FrameworkModuleWrapper)
    (ctx : v1.context_Context) (req : option proto.GeneratorRequest)
    (request : option GeneratorRequest) (fwResources : GeneratorResponse)
    (rs : list v1.Resource) (outs : list bytes) :
  fst (NewGeneratorRequest req) = Returned (request, None) ->
  FrameworkModule_Generate (Module_ f) ctx request = (Some fwResources, None) ->
  Resources fwResources = Some rs ->
  Forall2 resource_encodes rs outs ->
  fst (Generate f ctx req) = Returned (Some {| proto.Resources := outs |}, None) /\
  List.length outs = List.length rs.
Proof.
  intros HN HM Hrs Henc. apply split_run in HN. split.
  - unfold Generate. rewrite HN. cbn. rewrite HM. cbn. rewrite Hrs. cbn.
    rewrite (Earlier_marshal_resources_encoded _ _ _ Henc). reflexivity.
  - symmetry. eapply Forall2_length; eassumption.
Qed.

(** X12: the earlier adapter's error is that of the first resource that does
    not encode, and it returns no wire response with it. *)
Theorem Earlier_Generate_first_failing_resource (f : FrameworkModuleWrapper)
    (ctx : v1.context_Context) (req : option proto.GeneratorRequest)
    (request : option GeneratorRequest) (fwResources : GeneratorResponse)
    (pre post : list v1.Resource) (res : v1.Resource) (err : error) :
  fst (NewGeneratorRequest req) = Returned (request, None) ->
  FrameworkModule_Generate (Module_ f) ctx request = (Some fwResources, None) ->
  Resources fwResources = Some (pre ++ res :: post)%list ->
  Forall (fun res' => exists out, resource_encodes res' out) pre ->
  yaml_Marshal_Resource res = failed err ->
  fst (Generate f ctx req) =
    Returned (None, Some (fmt_Errorf "marshal resource failed: " err
                            (". res:" ++ Sprint_Resource res))).
Proof.
  intros HN HM Hrs Hpre Hres. apply split_run in HN.
  unfold Generate. rewrite HN. cbn. rewrite HM. cbn. rewrite Hrs. cbn.
  rewrite (Earlier_marshal_resources_first_failure pre post res err [] Hpre Hres).
  reflexivity.
Qed.

(** X13: a request the earlier assembler returns comes from a wire request
    whose workload blob is present and decodes; its [Workload] pointer is
    not nil and holds the decoded workload, it carries the three
    identifiers, and its two configuration layers hold the decoded blob or
    the zero value. *)
Theorem Earlier_NewGeneratorRequest_sound
    (req : option proto.GeneratorRequest) (g : GeneratorRequest) (err : option error) :
  fst (NewGeneratorRequest req) = Returned (Some g, err) ->
  exists r blob w,
    req = Some r /\ err = None /\
    proto.Workload r = Some blob /\
    yaml_Unmarshal_Workload blob v1.zero_Workload = ok w /\
    Workload g = Some w /\
    Project g = proto.Project r /\ Stack g = proto.Stack r /\ App g = proto.App r /\
    decoded yaml_Unmarshal_Accessory v1.zero_Accessory (proto.DevModuleConfig r)
      = ok (DevModuleConfig g) /\
    decoded yaml_Unmarshal_GenericConfig v1.zero_GenericConfig
      (proto.PlatformModuleConfig r) = ok (PlatformModuleConfig g).
Proof.
  destruct req as [[p s a bw bd bp bc]|]; [ | discriminate ].
  unfold NewGeneratorRequest, log_Infof. cbn.
  destruct bw as [bw|]; [ | discriminate ]. cbn.
  destruct (yaml_Unmarshal_Workload bw _) as [w|] eqn:Hw; [ | discriminate ]. cbn.
  destruct bd as [bd|];
    [ destruct (yaml_Unmarshal_Accessory bd _) eqn:Hd; [ | discriminate ] | ]; cbn;
    (destruct bp as [bp|];
       [ destruct (yaml_Unmarshal_GenericConfig bp _) eqn:Hp; [ | discriminate ] | ]); cbn;
    (destruct bc as [bc|];
       [ destruct (yaml_Unmarshal_nil_RuntimeConfigs bc) as [[e|]|];
         try discriminate | ]); cbn;
    (match goal with
     | |- context [yaml_Marshal_GeneratorRequest ?x] =>
         destruct (yaml_Marshal_GeneratorRequest x)
     end); cbn; intros Heq; inversion Heq; subst;
    eexists; exists bw, w; cbn; repeat split; assumption.
Qed.

(** X14: the runtime-config blob has no part in the request the earlier
    assembler returns: removing the blob from the wire request leaves the
    returned request as it was. *)
Theorem Earlier_runtime_config_ignored
    (r : proto.GeneratorRequest) (g : GeneratorRequest) (err : option error) :
  fst (NewGeneratorRequest (Some r)) = Returned (Some g, err) ->
  fst (NewGeneratorRequest (Some (without_runtime_config r))) = Returned (Some g, err).
Proof.
  destruct r as [p s a bw bd bp bc].
  unfold without_runtime_config, NewGeneratorRequest, log_Infof. cbn.
  destruct bw as [bw|]; [ | discriminate ]. cbn.
  destruct (yaml_Unmarshal_Workload bw _) as [w|]; [ | discriminate ]. cbn.
  destruct bd as [bd|];
    [ destruct (yaml_Unmarshal_Accessory bd _); [ | discriminate ] | ]; cbn;
    (destruct bp as [bp|];
       [ destruct (yaml_Unmarshal_GenericConfig bp _); [ | discriminate ] | ]); cbn;
    (destruct bc as [bc|];
       [ destruct (yaml_Unmarshal_nil_RuntimeConfigs bc) as [[e|]|];
         try discriminate | ]); cbn;
    (match goal with
     | |- context [yaml_Marshal_GeneratorRequest ?x] =>
         destruct (yaml_Marshal_GeneratorRequest x)
     end); cbn; intros Heq; exact Heq.
Qed.

(** X15: when the earlier assembler returns an error, or panics, the earlier
    adapter ends the same way: it returns that error with no wire response,
    or panics for the same reason. *)
Theorem Earlier_Generate_assembly_outcome_unchanged (f : FrameworkModuleWrapper)
    (ctx : v1.context_Context) (req : option proto.GeneratorRequest) :
  (forall request err,
     fst (NewGeneratorRequest req) = Returned (request, Some err) ->
     fst (Generate f ctx req) = Returned (None, Some err)) /\
  (forall reason,
     fst (NewGeneratorRequest req) = Panicked reason ->
     fst (Generate f ctx req) = Panicked reason).
Proof.
  split; [ intros request err HN | intros reason HN ];
    apply split_run in HN; unfold Generate; rewrite HN; reflexivity.
Qed.
End EarlierFurther.

(** * The further properties on the sample implementations *)

Lemma NewGeneratorRequest_sound_witness :
  exists r,
    Some Sample.layered = Some r /\
    @Framework.same_identifiers _ r Sample.layered_assembled /\
    @Framework.layers_decode _ (Sample.imports true) r Sample.layered_assembled /\
    @None error = None /\
    exists out,
      @Framework.yaml_Marshal_GeneratorRequest _ (Sample.imports true)
        Sample.layered_assembled = ok out.
Proof.
  apply (@NewGeneratorRequest_sound Sample.types (Sample.imports true)
           (Some Sample.layered) Sample.layered_assembled None).
  reflexivity.
Defined.

Lemma Generate_module_error_unchanged_witness :
  fst (@Framework.Generate _ (Sample.imports true)
         (Sample.constant_module (Some Sample.two_resources)
            (Some (errorString "module failed")))
         tt (Some Sample.bare))
    = Returned (None, Some (errorString "module failed")).
Proof.
  apply (@Generate_module_error_unchanged Sample.types (Sample.imports true)
           (Sample.constant_module (Some Sample.two_resources)
              (Some (errorString "module failed")))
           tt (Some Sample.bare)
           (Some (@Framework.zero_layers Sample.types Sample.bare))
           (Some Sample.two_resources) (errorString "module failed")
           eq_refl eq_refl).
Defined.

Lemma Generate_assembly_error_unchanged_witness :
  @Framework.Generate _ (Sample.imports true) (Sample.constant_module None None) tt
    (Some Sample.two_malformed)
  = (Returned (None, Some (@Framework.layer_error Framework.LContext
        (errorString "yaml: found character that cannot start any token"))),
     snd (@Framework.NewGeneratorRequest _ (Sample.imports true)
            (Some Sample.two_malformed))).
Proof.
  apply (@Generate_assembly_error_unchanged Sample.types (Sample.imports true)
           (Sample.constant_module None None) tt (Some Sample.two_malformed) None).
  reflexivity.
Defined.

Lemma Generate_first_failing_resource_witness :
  fst (@Framework.Generate _ (Sample.imports true)
         (Sample.constant_module (Some Sample.unencodable_resource) None)
         tt (Some Sample.bare))
    = Returned (None, Some (wrapError
        "marshal resource failed: cannot marshal type: func(). res:{}"
        (errorString "cannot marshal type: func()"))).
Proof.
  apply (@Generate_first_failing_resource Sample.types (Sample.imports true)
           (Sample.constant_module (Some Sample.unencodable_resource) None)
           tt (Some Sample.bare)
           (Some (@Framework.zero_layers Sample.types Sample.bare))
           Sample.unencodable_resource
           [Some Sample.good_blob] [] None
           (errorString "cannot marshal type: func()")
           eq_refl eq_refl eq_refl).
  - repeat constructor. exists Sample.good_blob. reflexivity.
  - reflexivity.
Defined.

Lemma Generate_response_sound_witness :
  @None error = None /\ @None error = None /\
  Forall2 (@Framework.resource_encodes _ (Sample.imports true))
    [Some Sample.good_blob; Some [x62]] [Sample.good_blob; [x62]] /\
  exists out,
    Sample.marshal (Some Sample.good_blob) = ok out /\
    Some Sample.good_blob = Some out.
Proof.
  apply (@Generate_response_sound Sample.types (Sample.imports true)
           (Sample.constant_module (Some Sample.two_resources) None)
           tt (Some Sample.bare)
           (Some (@Framework.zero_layers Sample.types Sample.bare))
           (Some Sample.two_resources) None None
           {| Framework.proto.Resources := [Sample.good_blob; [x62]];
              Framework.proto.Patcher := Some Sample.good_blob |}
           eq_refl eq_refl eq_refl).
Defined.

Lemma Generate_empty_result_witness :
  fst (@Framework.Generate _ (Sample.imports true)
         (Sample.constant_module
            (Some (@Framework.Build_GeneratorResponse Sample.types [] None)) None)
         tt (Some Sample.bare))
    = Returned (Some {| Framework.proto.Resources := [];
                        Framework.proto.Patcher := None |}, None).
Proof.
  apply (@Generate_empty_result Sample.types (Sample.imports true)
           (Sample.constant_module
              (Some (@Framework.Build_GeneratorResponse Sample.types [] None)) None)
           tt (Some Sample.bare)
           (Some (@Framework.zero_layers Sample.types Sample.bare))
           (@Framework.Build_GeneratorResponse Sample.types [] None)
           eq_refl eq_refl eq_refl eq_refl).
Defined.

Lemma Earlier_Generate_no_resources_witness :
  fst (@Earlier.Generate _ _ Sample.earlier_imports Sample.earlier_adapter_imports
         (Sample.earlier_constant_module
            (Some (@Earlier.Build_GeneratorResponse Sample.earlier_resource_types
                     (Some []))) None)
         tt (Some Sample.earlier_good_request))
    = Returned (Some {| Earlier.proto.Resources := [] |}, None).
Proof.
  apply (@Earlier_Generate_no_resources
           Sample.earlier_types Sample.earlier_resource_types
           Sample.earlier_imports Sample.earlier_adapter_imports
           (Sample.earlier_constant_module
              (Some (@Earlier.Build_GeneratorResponse Sample.earlier_resource_types
                       (Some []))) None)
           tt (Some Sample.earlier_good_request)
           (Some (@Earlier.Build_GeneratorRequest Sample.earlier_types
                    "p" "s" "a" (Some Sample.good_blob) [] [] None))
           (Some (@Earlier.Build_GeneratorResponse Sample.earlier_resource_types
                    (Some [])))
           eq_refl eq_refl eq_refl).
Defined.

Lemma Earlier_Generate_resources_in_order_witness :
  fst (@Earlier.Generate _ _ Sample.earlier_imports Sample.earlier_adapter_imports
         (Sample.earlier_constant_module
            (Some (@Earlier.Build_GeneratorResponse Sample.earlier_resource_types
                     (Some [Some Sample.good_blob; Some [x62]]))) None)
         tt (Some Sample.earlier_good_request))
    = Returned (Some {| Earlier.proto.Resources := [Sample.good_blob; [x62]] |}, None) /\
  List.length [Sample.good_blob; [x62]]
    = List.length [Some Sample.good_blob; Some [x62]].
Proof.
  apply (@Earlier_Generate_resources_in_order
           Sample.earlier_types Sample.earlier_resource_types
           Sample.earlier_imports Sample.earlier_adapter_imports
           (Sample.earlier_constant_module
              (Some (@Earlier.Build_GeneratorResponse Sample.earlier_resource_types
                       (Some [Some Sample.good_blob; Some [x62]]))) None)
           tt (Some Sample.earlier_good_request)
           (Some (@Earlier.Build_GeneratorRequest Sample.earlier_types
                    "p" "s" "a" (Some Sample.good_blob) [] [] None))
           (@Earlier.Build_GeneratorResponse Sample.earlier_resource_types
              (Some [Some Sample.good_blob; Some [x62]]))
           [Some Sample.good_blob; Some [x62]] [Sample.good_blob; [x62]]
           eq_refl eq_refl eq_refl).
  repeat constructor.
Defined.

Lemma Earlier_Generate_first_failing_resource_witness :
  fst (@Earlier.Generate _ _ Sample.earlier_imports Sample.earlier_adapter_imports
         (Sample.earlier_constant_module
            (Some (@Earlier.Build_GeneratorResponse Sample.earlier_resource_types
                     (Some [Some Sample.good_blob; None; Some [x62]]))) None)
         tt (Some Sample.earlier_good_request))
    = Returned (None, Some (wrapError
        "marshal resource failed: cannot marshal type: func(). res:{}"
        (errorString "cannot marshal type: func()"))).
Proof.
  apply (@Earlier_Generate_first_failing_resource
           Sample.earlier_types Sample.earlier_resource_types
           Sample.earlier_imports Sample.earlier_adapter_imports
           (Sample.earlier_constant_module
              (Some (@Earlier.Build_GeneratorResponse Sample.earlier_resource_types
                       (Some [Some Sample.good_blob; None; Some [x62]]))) None)
           tt (Some Sample.earlier_good_request)
           (Some (@Earlier.Build_GeneratorRequest Sample.earlier_types
                    "p" "s" "a" (Some Sample.good_blob) [] [] None))
           (@Earlier.Build_GeneratorResponse Sample.earlier_resource_types
              (Some [Some Sample.good_blob; None; Some [x62]]))
           [Some Sample.good_blob] [Some [x62]] None
           (errorString "cannot marshal type: func()")
           eq_refl eq_refl eq_refl).
  - repeat constructor. exists Sample.good_blob. reflexivity.
  - reflexivity.
Defined.

Lemma Earlier_NewGeneratorRequest_sound_witness :
  exists r blob w,
    Some Sample.earlier_good_request = Some r /\ @None error = None /\
    Earlier.proto.Workload r = Some blob /\
    Sample.unmarshal blob [] = ok w /\
    Some Sample.good_blob = Some w /\
    "p" = Earlier.proto.Project r /\ "s" = Earlier.proto.Stack r /\
    "a" = Earlier.proto.App r /\
    Earlier.decoded Sample.unmarshal [] (Earlier.proto.DevModuleConfig r) = ok [] /\
    Earlier.decoded Sample.unmarshal [] (Earlier.proto.PlatformModuleConfig r) = ok [].
Proof.
  apply (@Earlier_NewGeneratorRequest_sound Sample.earlier_types Sample.earlier_imports
           (Some Sample.earlier_good_request)
           (@Earlier.Build_GeneratorRequest Sample.earlier_types
              "p" "s" "a" (Some Sample.good_blob) [] [] None)
           None).
  reflexivity.
Defined.

Lemma Earlier_runtime_config_ignored_witness :
  fst (@Earlier.NewGeneratorRequest _ Sample.earlier_imports
         (Some (Earlier.without_runtime_config
                  (Sample.earlier_request (Some Sample.good_blob) (Some [])))))
    = Returned (Some (@Earlier.Build_GeneratorRequest Sample.earlier_types
                        "p" "s" "a" (Some Sample.good_blob) [] [] None), None).
Proof.
  apply (@Earlier_runtime_config_ignored Sample.earlier_types Sample.earlier_imports
           (Sample.earlier_request (Some Sample.good_blob) (Some []))).
  reflexivity.
Defined.

Lemma Earlier_Generate_assembly_outcome_unchanged_witness :
  fst (@Earlier.Generate _ _ Sample.earlier_imports Sample.earlier_adapter_imports
         (Sample.earlier_constant_module None None) tt
         (Some (Sample.earlier_request None None)))
    = Returned (None, Some (errorString "workload in the request is nil")) /\
  fst (@Earlier.Generate _ _ Sample.earlier_imports Sample.earlier_adapter_imports
         (Sample.earlier_constant_module None None) tt None)
    = Panicked nil_dereference.
Proof.
  split.
  - apply (proj1 (@Earlier_Generate_assembly_outcome_unchanged
                    Sample.earlier_types Sample.earlier_resource_types
                    Sample.earlier_imports Sample.earlier_adapter_imports
                    (Sample.earlier_constant_module None None) tt
                    (Some (Sample.earlier_request None None))) None).
    reflexivity.
  - apply (proj2 (@Earlier_Generate_assembly_outcome_unchanged
                    Sample.earlier_types Sample.earlier_resource_types
                    Sample.earlier_imports Sample.earlier_adapter_imports
                    (Sample.earlier_constant_module None None) tt None)).
    reflexivity.
Defined.
